(** * stocktrendllm: a shallow embedding of the Python sources

    The development follows the layout of the repository:
    - [Py]         exceptions, results and the effect monad shared by all modules
    - [Stdlib_py]  the parts of Python's standard library the code calls
                   ([random], [datetime], [asyncio.sleep], [round], [str.upper])
    - [Config]     config.py
    - [Schemas]    the record types of src/models/schemas.py
    - [Helpers]    src/utils/helpers.py
    - [Vantage]    src/mcp/vantage_client.py
    - [Main]       src/main.py
    - [App]        app.py
    - [RunApp]     run_app.py
    - [ModuleLoad] evaluation of the top-level statements of a module

    The statements about them come after the definitions, one section per
    source file.

    Floating point values are modelled by exact rationals ([Q]); every
    property proved about them below only uses the monotonicity of addition
    and of rounding. *)

From Stdlib Require Import ZArith QArith Qround Qminmax Ascii String List Lia Lqa.
From stdpp Require Import gmap strings list pretty.

Local Open Scope string_scope.
Local Open Scope Z_scope.

(* ===================================================================== *)
(** ** Exceptions, results, and the effect monad *)
(* ===================================================================== *)

Module Py.

(** Exception classes that occur in the sources.  Every class listed here
    derives from Python's [Exception]; [RequestException] stands for
    [requests.exceptions.RequestException] and all of its subclasses
    (ConnectionError, Timeout, ...), named by [sub]. *)
Inductive exc_class :=
| ValueError
| TypeError
| AttributeError
| NameError
| ModuleNotFoundError
| OSError
| RequestException (sub : string)
| OtherException (name : string).

(** An exception instance: its class and [str(e)]. *)
Record exn := mk_exn { exc_type : exc_class; exc_str : string }.

Inductive result (A : Type) :=
| Return (a : A)
| Raise (e : exn).
Arguments Return {A} a.
Arguments Raise {A} e.

(** Observable effects, in the order they happen. *)
Inductive event :=
| EvSleep (seconds : Z)
| EvPrint (line : string)
| EvHttpPost (url : string) (timeout : Z)
| EvSpawn (argv : list string)
| EvStreamlit (widget : string) (text : string)
| EvAnalyze (symbol period : string).

(** The part of the outside world the program reads and writes:
    - [entropy], [cursor]: the raw words the shared [random] generator
      will produce, and how many have been consumed;
    - [clock]: local wall-clock time, in seconds since midnight of the
      day of proleptic Gregorian ordinal 0;
    - [trace]: the effects performed so far. *)
Record world := mk_world {
  entropy : nat -> Z;
  cursor : nat;
  clock : Z;
  trace : list event
}.

(** A computation reads and updates the world and returns or raises. *)
Definition M (A : Type) : Type := world -> result A * world.

Definition ret {A} (a : A) : M A := fun w => (Return a, w).

Definition raise {A} (e : exn) : M A := fun w => (Raise e, w).

Definition bind {A B} (c : M A) (k : A -> M B) : M B :=
  fun w =>
    match c w with
    | (Return a, w') => k a w'
    | (Raise e, w') => (Raise e, w')
    end.

(** [try: body except <classes matching catches> as e: handler e] *)
Definition try_except {A} (body : M A) (catches : exc_class -> bool)
           (handler : exn -> M A) : M A :=
  fun w =>
    match body w with
    | (Return a, w') => (Return a, w')
    | (Raise e, w') =>
        if catches (exc_type e) then handler e w' else (Raise e, w')
    end.

(** [except Exception]: every class of [exc_class] derives from it. *)
Definition except_Exception (c : exc_class) : bool := true.

(** [except requests.exceptions.RequestException] *)
Definition except_RequestException (c : exc_class) : bool :=
  match c with RequestException _ => true | _ => false end.

Definition emit (ev : event) : M unit :=
  fun w => (Return tt,
            mk_world (entropy w) (cursor w) (clock w) (trace w ++ [ev])).

(** [print(line)] *)
Definition print (line : string) : M unit := emit (EvPrint line).

End Py.

Import Py.

Declare Scope py_scope.
Delimit Scope py_scope with py.
Notation "x <- c ;; k" := (Py.bind c (fun x => k))
  (at level 100, c at next level, right associativity) : py_scope.
Notation "c ;;; k" := (Py.bind c (fun _ => k))
  (at level 100, right associativity) : py_scope.
Local Open Scope py_scope.

(* ===================================================================== *)
(** ** The pieces of Python's standard library used by the sources *)
(* ===================================================================== *)

Module Stdlib_py.

(** *** random: the module-level shared generator *)

(** The next raw word of the generator. *)
Definition next_raw : M Z :=
  fun w => (Return (entropy w (cursor w)),
            mk_world (entropy w) (S (cursor w)) (clock w) (trace w)).

(** [random.random()]: 53 random bits scaled into [0.0, 1.0). *)
Definition random : M Q :=
  r <- next_raw ;; ret (Qmake (r mod 2 ^ 53) (2 ^ 53)).

(** [random.uniform(a, b)] is [a + (b - a) * random()]. *)
Definition uniform (a b : Q) : M Q :=
  r <- random ;; ret (a + (b - a) * r)%Q.

(** [random.randint(a, b)] is [a + _randbelow(b - a + 1)]. *)
Definition randint (a b : Z) : M Z :=
  r <- next_raw ;; ret (a + r mod (b - a + 1)).

(** *** datetime *)

(** A [datetime] is a number of seconds; a [timedelta(days=n)] is
    [86400 * n] seconds. *)
Definition timedelta (days : Z) : Z := 86400 * days.

(** [datetime.now()] *)
Definition datetime_now : M Z := fun w => (Return (clock w), w).

(** [d.toordinal()]: the proleptic Gregorian day number of the date part. *)
Definition toordinal (d : Z) : Z := d / 86400.

(** [d.weekday()]: Monday is 0 and Sunday is 6; ordinal 1 is a Monday. *)
Definition weekday (d : Z) : Z := (toordinal d + 6) mod 7.

(** Year, month and day of an ordinal (Gregorian calendar, 400-year eras
    of 146097 days counted from March 1st of year 0). *)
Definition civil_of_ordinal (n : Z) : Z * Z * Z :=
  let z := n + 305 in
  let era := z / 146097 in
  let doe := z - era * 146097 in
  let yoe := (doe - doe / 1460 + doe / 36524 - doe / 146096) / 365 in
  let doy := doe - (365 * yoe + yoe / 4 - yoe / 100) in
  let mp := (5 * doy + 2) / 153 in
  let d := doy - (153 * mp + 2) / 5 + 1 in
  let m := if mp <? 10 then mp + 3 else mp - 9 in
  let y := yoe + era * 400 + (if m <=? 2 then 1 else 0) in
  (y, m, d).

(** Decimal rendering of [n], left-padded with zeros to [width]. *)
Definition zero_pad (width : nat) (n : Z) : string :=
  let s := pretty n in
  String.concat "" (replicate (width - String.length s) "0") +:+ s.

(** [d.strftime("%Y-%m-%d")] *)
Definition strftime_Ymd (d : Z) : string :=
  let '(y, m, dd) := civil_of_ordinal (toordinal d) in
  zero_pad 4 y +:+ "-" +:+ zero_pad 2 m +:+ "-" +:+ zero_pad 2 dd.

(** [asyncio.sleep(seconds)]: time passes. *)
Definition asyncio_sleep (seconds : Z) : M unit :=
  fun w => (Return tt,
            mk_world (entropy w) (cursor w) (clock w + seconds)
                     (trace w ++ [EvSleep seconds])).

(** *** numbers *)

(** Round to the nearest integer, ties to the even one. *)
Definition round_half_even (x : Q) : Z :=
  let f := Qfloor x in
  match Qcompare (x - inject_Z f) (1 # 2) with
  | Lt => f
  | Gt => f + 1
  | Eq => if Z.even f then f else f + 1
  end.

(** [round(x, 2)] *)
Definition round2 (x : Q) : Q := Qmake (round_half_even (x * 100)) 100.

(** *** strings *)

Definition upper_ascii (c : ascii) : ascii :=
  let n := nat_of_ascii c in
  if ((97 <=? n) && (n <=? 122))%nat then ascii_of_nat (n - 32) else c.

(** [s.upper()] on ASCII text. *)
Fixpoint upper (s : string) : string :=
  match s with
  | EmptyString => EmptyString
  | String c s' => String (upper_ascii c) (upper s')
  end.

End Stdlib_py.

Import Stdlib_py.

(* ===================================================================== *)
(** ** config.py *)
(* ===================================================================== *)

Module Config.

Record Config := mk_Config {
  MCP_SERVER_URL : string;
  MCP_API_KEY : string;
  OPENAI_API_KEY : string;
  DEFAULT_MODEL : string;
  SUPPORTED_PERIODS : list string;
  DEFAULT_PERIOD : string
}.

(** [os.getenv(name, default)] over the process environment. *)
Definition getenv (env : gmap string string) (name default : string) : string :=
  match env !! name with
  | Some v => v
  | None => default
  end.

(** The class body of [Config], evaluated once when the module is loaded. *)
Definition config (env : gmap string string) : Config :=
  {| MCP_SERVER_URL := getenv env "MCP_SERVER_URL" "mock";
     MCP_API_KEY := getenv env "MCP_API_KEY" "demo-key";
     OPENAI_API_KEY := getenv env "OPENAI_API_KEY" "";
     DEFAULT_MODEL := "gpt-4";
     SUPPORTED_PERIODS := ["1d"; "1w"; "1m"; "3m"; "6m"; "1y"; "2y"; "5y"];
     DEFAULT_PERIOD := "1y" |}.

End Config.

(* ===================================================================== *)
(** ** src/models/schemas.py *)
(* ===================================================================== *)

Module Schemas.

(** Modelled from the spec: the module src/models/schemas.py is not among
    the sources.  [TimePeriod] is the closed enumeration of the eight
    accepted analysis windows. *)
Inductive TimePeriod := P1d | P1w | P1m | P3m | P6m | P1y | P2y | P5y.

Definition period_value (p : TimePeriod) : string :=
  match p with
  | P1d => "1d" | P1w => "1w" | P1m => "1m" | P3m => "3m"
  | P6m => "6m" | P1y => "1y" | P2y => "2y" | P5y => "5y"
  end.

Definition all_periods : list TimePeriod :=
  [P1d; P1w; P1m; P3m; P6m; P1y; P2y; P5y].

(** Modelled from the spec: [TimePeriod(s)] succeeds on the eight codes
    and fails otherwise; the failure is Python's [ValueError] for an
    enumeration lookup. *)
Definition TimePeriod_of (s : string) : result TimePeriod :=
  match List.find (fun p => String.eqb (period_value p) s) all_periods with
  | Some p => Return p
  | None => Raise (mk_exn ValueError ("'" +:+ s +:+ "' is not a valid TimePeriod"))
  end.

(** Modelled from the spec: the request record of schemas.py. *)
Record StockRequest := mk_StockRequest {
  req_symbol : string;
  req_period : TimePeriod;
  req_start_date : option string;
  req_end_date : option string
}.

(** Modelled from the spec: one trading-day observation. *)
Record StockDataPoint := mk_StockDataPoint {
  pt_date : string;
  pt_open : Q;
  pt_high : Q;
  pt_low : Q;
  pt_close : Q;
  pt_volume : Z;
  pt_adjusted_close : Q
}.

(** Modelled from the spec: the pipeline's output record. *)
Record StockAnalysis := mk_StockAnalysis {
  an_symbol : string;
  an_period : TimePeriod;
  an_data_points : list StockDataPoint;
  an_statistics : gmap string Q;
  an_trends : gmap string string;
  an_summary : gmap string Z
}.

(** The values that the dictionaries and tuples of the program hold.
    [VDate] is a [datetime.date] given by its ordinal; [VOther] is any
    other object, with its truth value and its [str()]. *)
Inductive pyval :=
| VNone
| VBool (b : bool)
| VStr (s : string)
| VDate (ordinal : Z)
| VRequest (r : StockRequest)
| VAnalysis (a : StockAnalysis)
| VOther (truth : bool) (repr : string).

(** Python's truth value testing: [None], [False] and the empty string
    are false; dates and model instances are true. *)
Definition truthy (v : pyval) : bool :=
  match v with
  | VNone => false
  | VBool b => b
  | VStr s => negb (String.eqb s "")
  | VDate _ => true
  | VRequest _ => true
  | VAnalysis _ => true
  | VOther t _ => t
  end.

(** [d.get(key)]: the value, or [None] when the key is absent. *)
Definition dict_get (d : gmap string pyval) (key : string) : pyval :=
  match d !! key with
  | Some v => v
  | None => VNone
  end.

End Schemas.

Import Schemas.

(* ===================================================================== *)
(** ** src/utils/helpers.py *)
(* ===================================================================== *)

Module Helpers.

Definition newline : string := String (ascii_of_nat 10) EmptyString.

(** One entry of the [data] list built by [create_sample_data]. *)
Record DayRecord := mk_DayRecord {
  date : string;
  open : Q;
  high : Q;
  low : Q;
  close : Q;
  volume : Z;
  adjusted_close : Q
}.

(** The dictionary returned by [create_sample_data]; the period is kept
    as whatever object the caller passed. *)
Record SampleData (P : Type) := mk_SampleData {
  symbol : string;
  period : P;
  data : list DayRecord
}.
Arguments mk_SampleData {P} _ _ _.
Arguments symbol {P} _.
Arguments period {P} _.
Arguments data {P} _.

Section Formatting.

(** Python's number formatting and object printing are taken as given:
    [fmt_2f x] is [f"{x:.2f}"], [fmt_comma_0f x] is [f"{x:,.0f}"],
    [str_period] and [str_object] are [str()] of an enumeration member
    and of a model instance. *)
Variable fmt_2f : Q -> string.
Variable fmt_comma_0f : Q -> string.
Variable str_period : TimePeriod -> string.
Variable str_object : pyval -> string.

(** [str(v)], as f-string interpolation applies it. *)
Definition py_str (v : pyval) : string :=
  match v with
  | VNone => "None"
  | VBool true => "True"
  | VBool false => "False"
  | VStr s => s
  | VDate n => strftime_Ymd (timedelta n)
  | VOther _ repr => repr
  | _ => str_object v
  end.

Definition stat (stats : gmap string Q) (key : string) : Q :=
  default 0%Q (stats !! key).

(** The report lines of [format_analysis_output], joined by newlines. *)
Definition report (analysis : StockAnalysis) : string :=
  let stats := an_statistics analysis in
  let trends := an_trends analysis in
  String.concat newline
    [ "📊 STOCK ANALYSIS REPORT";
      "Symbol: " +:+ an_symbol analysis;
      "Period: " +:+ str_period (an_period analysis);
      "Data Points: " +:+ pretty (default 0 (an_summary analysis !! "total_data_points"));
      "";
      "📈 PRICE SUMMARY";
      "Current Price: $" +:+ fmt_2f (stat stats "current_price");
      "Price Change: $" +:+ fmt_2f (stat stats "price_change") +:+ " ("
         +:+ fmt_2f (stat stats "percent_change") +:+ "%)";
      "Period High: $" +:+ fmt_2f (stat stats "period_high");
      "Period Low: $" +:+ fmt_2f (stat stats "period_low");
      "Average Volume: " +:+ fmt_comma_0f (stat stats "avg_volume");
      "";
      "📊 TREND ANALYSIS";
      "Trend Direction: " +:+ upper (default "unknown" (trends !! "trend_direction"));
      "Volatility: " +:+ upper (default "unknown" (trends !! "volatility"));
      "";
      "🔍 DETAILED ANALYSIS";
      default "No detailed analysis available" (trends !! "analysis") ].

(** [format_analysis_output(result)].  A true value under
    ["analysis_result"] that is not a [StockAnalysis] has no
    [statistics] attribute. *)
Definition format_analysis_output (result : gmap string pyval) : Py.result string :=
  if truthy (dict_get result "error") then
    match result !! "error" with
    | Some v => Return ("Error: " +:+ py_str v)
    | None => Raise (mk_exn (OtherException "KeyError") "'error'")
    end
  else
    let analysis := dict_get result "analysis_result" in
    if negb (truthy analysis) then
      Return "No analysis result available"
    else
      match analysis with
      | VAnalysis a => Return (report a)
      | _ => Raise (mk_exn AttributeError "object has no attribute 'statistics'")
      end.

End Formatting.

(** The body of the [for] loop for a weekday [day]: four uniform draws
    and one integer draw, in source order. *)
Definition sample_point (base_price : Z) (day : Z) : M DayRecord :=
  u_open <- uniform (-2) 2 ;;
  let open_price := (inject_Z base_price + u_open)%Q in
  u_close <- uniform (-5) 5 ;;
  let close_price := (open_price + u_close)%Q in
  u_high <- uniform 0 3 ;;
  let high_price := (Qmax open_price close_price + u_high)%Q in
  u_low <- uniform 0 3 ;;
  let low_price := (Qmin open_price close_price - u_low)%Q in
  vol <- randint 1000000 5000000 ;;
  ret {| date := strftime_Ymd day;
         open := round2 open_price;
         high := round2 high_price;
         low := round2 low_price;
         close := round2 close_price;
         volume := vol;
         adjusted_close := round2 close_price |}.

(** [for i in range(...)]: skip Saturdays and Sundays, append otherwise. *)
Fixpoint sample_loop (base_price current_date : Z) (range : list Z)
  : M (list DayRecord) :=
  match range with
  | [] => ret []
  | i :: rest =>
      let day := current_date + timedelta i in
      if weekday day <? 5 then
        p <- sample_point base_price day ;;
        ps <- sample_loop base_price current_date rest ;;
        ret (p :: ps)
      else sample_loop base_price current_date rest
  end.

(** [create_sample_data(symbol, period)] *)
Definition create_sample_data {P} (symbol : string) (period : P) : M (SampleData P) :=
  r <- randint (-20) 20 ;;
  let base_price := 100 + r in
  now <- datetime_now ;;
  let current_date := now - timedelta 365 in
  data_points <- sample_loop base_price current_date (seqZ 0 250) ;;
  ret (mk_SampleData symbol period data_points).

End Helpers.

Import Helpers.

(* ===================================================================== *)
(** ** src/mcp/vantage_client.py *)
(* ===================================================================== *)

Module Vantage.

(** The JSON body posted to [{base_url}/stock/data]. *)
Record StockDataPayload := mk_StockDataPayload {
  pl_symbol : string;
  pl_period : TimePeriod;
  pl_start_date : option string;
  pl_end_date : option string
}.

Record VantageMCPServer := mk_VantageMCPServer {
  base_url : string;
  headers : list (string * string);
  use_mock_data : bool
}.

(** [VantageMCPServer.__init__] *)
Definition init (config : Config.Config) : VantageMCPServer :=
  {| base_url := Config.MCP_SERVER_URL config;
     headers := [ ("Content-Type", "application/json");
                  ("Authorization", "Bearer " +:+ Config.MCP_API_KEY config) ];
     use_mock_data := String.eqb (Config.MCP_SERVER_URL config) "mock" |}.

Section Client.

(** [Json] is the type of parsed response bodies.  A response carries
    its status code and what [response.json()] evaluates to. *)
Variable Json : Type.

Record Response := mk_Response {
  status_code : Z;
  json : Py.result Json
}.

(** The provider and the network between it and the client: what a
    POST of a payload to a URL yields, a response or a raised
    exception. *)
Variable network :
  world -> string -> list (string * string) -> StockDataPayload -> Py.result Response.

(** [requests.post(url, headers=..., json=..., timeout=...)] *)
Definition requests_post (url : string) (hdrs : list (string * string))
           (body : StockDataPayload) (timeout : Z) : M Response :=
  fun w => (network w url hdrs body,
            mk_world (entropy w) (cursor w) (clock w)
                     (trace w ++ [EvHttpPost url timeout])).

(** What [get_stock_data] returns: the provider's parsed body or the
    dictionary of [create_sample_data]. *)
Inductive StockData :=
| ProviderBody (body : Json)
| Sample (d : SampleData TimePeriod).

Definition sample_for (stock_request : StockRequest) : M StockData :=
  d <- create_sample_data (req_symbol stock_request) (req_period stock_request) ;;
  ret (Sample d).

(** [VantageMCPServer.get_stock_data] *)
Definition get_stock_data (self : VantageMCPServer) (stock_request : StockRequest)
  : M StockData :=
  if use_mock_data self then
    asyncio_sleep 1 ;;;
    sample_for stock_request
  else
    try_except
      (let payload :=
         {| pl_symbol := req_symbol stock_request;
            pl_period := req_period stock_request;
            pl_start_date := req_start_date stock_request;
            pl_end_date := req_end_date stock_request |} in
       response <- requests_post (base_url self +:+ "/stock/data")
                                 (headers self) payload 30 ;;
       if status_code response =? 200 then
         body <- (fun w => (json response, w)) ;;
         ret (ProviderBody body)
       else
         print ("MCP Server error, using mock data: "
                  +:+ pretty (status_code response)) ;;;
         sample_for stock_request)
      except_RequestException
      (fun e =>
         print ("MCP Server connection failed, using mock data: " +:+ exc_str e) ;;;
         sample_for stock_request).

End Client.

Arguments ProviderBody {Json} body.
Arguments Sample {Json} d.
Arguments status_code {Json} _.
Arguments json {Json} _.
Arguments mk_Response {Json} _ _.

(** [data[-n:]]: the last [n] elements, or the whole list when it is
    shorter. *)
Definition last_n {A} (n : nat) (l : list A) : list A :=
  drop (length l - n) l.

(** [sum([point.close for point in points])]: Python's [sum] starts from 0
    and adds from left to right. *)
Definition sum_close (points : list StockDataPoint) : Q :=
  fold_left (fun acc p => (acc + pt_close p)%Q) points 0%Q.

(** [sum([point.close for point in data[-n:]]) / n if len(data) >= n else 0] *)
Definition sma (n : nat) (data : list StockDataPoint) : Q :=
  if (n <=? length data)%nat
  then (sum_close (last_n n data) / inject_Z (Z.of_nat n))%Q
  else 0%Q.

(** A bare [except:] clause matches every exception. *)
Definition bare_except (c : exc_class) : bool := true.

Section Indicators.

Variable Json : Type.

(** The provider's answer to a POST of a symbol and its data points. *)
Variable indicator_network :
  world -> string -> list (string * string) -> string -> list StockDataPoint ->
  Py.result (Response Json).

(** [requests.post] for the indicator payload [{symbol, data}]. *)
Definition requests_post_indicators (url : string) (hdrs : list (string * string))
           (sym : string) (points : list StockDataPoint) (timeout : Z)
  : M (Response Json) :=
  fun w => (indicator_network w url hdrs sym points,
            mk_world (entropy w) (cursor w) (clock w)
                     (trace w ++ [EvHttpPost url timeout])).

(** What [get_technical_indicators] returns: the demo dictionary, the
    provider's parsed body, or the empty dictionary. *)
Inductive Indicators :=
| DemoIndicators (rsi macd sma_20 sma_50 : Q)
| ProviderIndicators (body : Json)
| EmptyDict.

(** [VantageMCPServer.get_technical_indicators] *)
Definition get_technical_indicators (self : VantageMCPServer) (sym : string)
           (data : list StockDataPoint) : M Indicators :=
  if use_mock_data self then
    ret (DemoIndicators (456 # 10) (12 # 10) (sma 20 data) (sma 50 data))
  else
    try_except
      (response <- requests_post_indicators (base_url self +:+ "/technical/indicators")
                                            (headers self) sym data 30 ;;
       if status_code response =? 200 then
         body <- (fun w => (json response, w)) ;;
         ret (ProviderIndicators body)
       else ret EmptyDict)
      bare_except
      (fun _ => ret EmptyDict).

End Indicators.

Arguments DemoIndicators {Json} _ _ _ _.
Arguments ProviderIndicators {Json} body.
Arguments EmptyDict {Json}.

End Vantage.

(* ===================================================================== *)
(** ** src/main.py *)
(* ===================================================================== *)

Module Main.

(** The state dictionary that [analyze_stock] hands to the graph. *)
Definition initial_state (stock_request : StockRequest) : gmap string pyval :=
  <["stock_request" := VRequest stock_request]>
  (<["raw_data" := VNone]>
  (<["processed_data" := VNone]>
  (<["analysis_result" := VNone]>
  (<["error" := VNone]> ∅)))).

(** The dictionary built by the [except] clause of [analyze_stock]. *)
Definition failure (e : exn) : gmap string pyval :=
  {[ "error" := VStr ("Analysis failed: " +:+ exc_str e) ]}.

Section StockAnalysisApp.

(** [self.graph.ainvoke]: the compiled analysis graph of
    src/graph/stock_analysis_graph.py, which is not among the sources.
    It maps the initial state to the terminal state, or raises. *)
Variable ainvoke : gmap string pyval -> M (gmap string pyval).

(** [StockAnalysisApp.analyze_stock] *)
Definition analyze_stock (symbol period : string)
           (start_date end_date : option string) : M (gmap string pyval) :=
  try_except
    (let symbol_upper := upper symbol in
     p <- (fun w => (TimePeriod_of period, w)) ;;
     let stock_request :=
       {| req_symbol := symbol_upper;
          req_period := p;
          req_start_date := start_date;
          req_end_date := end_date |} in
     result <- ainvoke (initial_state stock_request) ;;
     ret result)
    except_Exception
    (fun e => ret (failure e)).

End StockAnalysisApp.

Section FormatOutput.

Variable fmt_2f : Q -> string.
Variable fmt_comma_0f : Q -> string.
Variable str_period : TimePeriod -> string.
Variable str_object : pyval -> string.


End FormatOutput.

End Main.

(* ===================================================================== *)
(** ** run_app.py *)
(* ===================================================================== *)

Module RunApp.

Record CompletedProcess := mk_CompletedProcess {
  args : list string;
  returncode : Z
}.

Section Launcher.

(** [sys.executable], and the operating system's answer to running a
    command line to completion: the child's exit status, or an
    exception when the child cannot be started. *)
Variable sys_executable : string.
Variable spawn : list string -> Py.result Z.

(** [subprocess.run(argv)] without [check=True]: waits for the child
    and returns its status inside a [CompletedProcess]. *)
Definition subprocess_run (argv : list string) : M CompletedProcess :=
  emit (EvSpawn argv) ;;;
  rc <- (fun w => (spawn argv, w)) ;;
  ret (mk_CompletedProcess argv rc).

(** [main()]: the call's value is dropped and [None] is returned. *)
Definition main : M unit :=
  _ <- subprocess_run [sys_executable; "-m"; "streamlit"; "run"; "app.py"] ;;
  ret tt.

(** The exit status of [python run_app.py]: the module body calls
    [main()]; the interpreter exits with 0 when the module body
    finishes and with 1 on an exception nobody caught. *)
Definition exit_status (w : world) : Z :=
  match fst (main w) with
  | Return _ => 0
  | Raise _ => 1
  end.

End Launcher.

End RunApp.

(* ===================================================================== *)
(** ** app.py *)
(* ===================================================================== *)

Module App.

(** What the widgets of one script run return: the text box, the select
    box, the check boxes, the two date pickers (ordinals of the chosen
    dates) and the buttons. *)
Record ui_input := mk_ui_input {
  symbol_text : string;
  selected_period : string;
  use_custom_dates : bool;
  start_date_input : option Z;
  end_date_input : option Z;
  show_technical_box : bool;
  show_volume_box : bool;
  detailed_analysis_box : bool;
  analyze_button : bool;
  quick_amzn_button : bool;
  quick_aapl_button : bool
}.

Definition period_options : gmap string string :=
  list_to_map
    [ ("1 Day", "1d"); ("1 Week", "1w"); ("1 Month", "1m"); ("3 Months", "3m");
      ("6 Months", "6m"); ("1 Year", "1y"); ("2 Years", "2y"); ("5 Years", "5y") ].

(** The two tuples [setup_sidebar] returns: the seven-element
    configuration of its last line, and the four [None]s of the early
    return. *)
Inductive sidebar_tuple :=
| Tuple7 (symbol period : string) (start_date end_date : option Z)
         (show_technical show_volume detailed_analysis : bool)
| Tuple4_None.

Definition tuple_len (t : sidebar_tuple) : nat :=
  match t with
  | Tuple7 _ _ _ _ _ _ _ => 7
  | Tuple4_None => 4
  end.

(** Unpacking a tuple into seven targets. *)
Definition unpack7 (t : sidebar_tuple)
  : M (string * string * option Z * option Z * bool * bool * bool) :=
  match t with
  | Tuple7 s p sd ed st sv da => ret (s, p, sd, ed, st, sv, da)
  | Tuple4_None =>
      raise (mk_exn ValueError
               ("not enough values to unpack (expected 7, got "
                  +:+ pretty (tuple_len t) +:+ ")"))
  end.

(** A Streamlit call that draws [text] with [widget]. *)
Definition st (widget text : string) : M unit := emit (EvStreamlit widget text).

(** [StreamlitStockApp.setup_sidebar] *)
Definition setup_sidebar (ui : ui_input) : M sidebar_tuple :=
  st "sidebar.title" "📊 Stock Analysis Configuration" ;;;
  let symbol := upper (symbol_text ui) in
  period <- match period_options !! selected_period ui with
            | Some p => ret p
            | None => raise (mk_exn (OtherException "KeyError") (selected_period ui))
            end ;;
  let start_date := if use_custom_dates ui then start_date_input ui else None in
  let end_date := if use_custom_dates ui then end_date_input ui else None in
  let options :=
    st "sidebar.markdown" "---" ;;;
    st "sidebar.subheader" "Analysis Options" ;;;
    ret (Tuple7 symbol period start_date end_date
                (show_technical_box ui) (show_volume_box ui)
                (detailed_analysis_box ui)) in
  if use_custom_dates ui then
    match start_date, end_date with
    | Some s, Some e =>
        if s >=? e then
          st "sidebar.error" "Start date must be before end date" ;;;
          ret Tuple4_None
        else options
    | _, _ => options
    end
  else options.

Section StreamlitStockApp.

(** [self.app.analyze_stock], the drawing of a completed analysis
    (metric cards, charts, trend panel, raw data table), and [str()]
    of model instances. *)
Variable analyze_stock :
  string -> string -> option string -> option string -> M (gmap string pyval).
Variable display_results : pyval -> bool -> bool -> M unit.
Variable str_object : pyval -> string.

Definition isoformat (ordinal : Z) : string := strftime_Ymd (timedelta ordinal).

(** [StreamlitStockApp.run_analysis]; [EvAnalyze] marks the call of the
    analyze operation. *)
Definition run_analysis (symbol period : string) (start_date end_date : option Z)
  : M (option (gmap string pyval)) :=
  try_except
    (st "spinner" ("Analyzing " +:+ symbol +:+ " for " +:+ period +:+ " period...") ;;;
     emit (EvAnalyze symbol period) ;;;
     result <- analyze_stock symbol period
                 (isoformat <$> start_date) (isoformat <$> end_date) ;;
     ret (Some result))
    except_Exception
    (fun e => st "error" ("Analysis failed: " +:+ exc_str e) ;;; ret None).

(** The branch of [run] taken when the analyze button is pressed. *)
Definition on_analyze (symbol period : string) (start_date end_date : option Z)
           (show_volume detailed_analysis : bool) : M unit :=
  if negb (String.eqb symbol "") then
    result <- run_analysis symbol period start_date end_date ;;
    match result with
    | Some r =>
        if bool_decide (r ≠ ∅) && negb (truthy (dict_get r "error")) then
          let analysis_result := dict_get r "analysis_result" in
          if truthy analysis_result then
            st "markdown" "---" ;;;
            display_results analysis_result show_volume detailed_analysis
          else st "error" "No analysis results available"
        else
          let error_msg :=
            if bool_decide (r ≠ ∅) then
              match r !! "error" with
              | Some v => py_str str_object v
              | None => "Unknown error occurred"
              end
            else "Analysis failed" in
          st "error" ("Analysis failed: " +:+ error_msg)
    | None => st "error" "Analysis failed: Analysis failed"
    end
  else st "error" "Please enter a stock symbol".

(** [StreamlitStockApp.run]; the header is logged without its HTML
    wrapper. *)
Definition run (ui : ui_input) : M unit :=
  st "markdown" "📈 AI Stock Trend Analyzer" ;;;
  st "markdown"
     "Analyze stock trends using AI-powered analysis with MCP Server integration" ;;;
  t <- setup_sidebar ui ;;
  cfg <- unpack7 t ;;
  let '(symbol, period, start_date, end_date, _, show_volume, detailed_analysis) := cfg in
  (if analyze_button ui then
     on_analyze symbol period start_date end_date show_volume detailed_analysis
   else ret tt) ;;;
  st "sidebar.markdown" "---" ;;;
  st "sidebar.markdown" "### 💡 Quick Analysis" ;;;
  (if quick_amzn_button ui then st "session_state.quick_symbol" "AMZN" else ret tt) ;;;
  (if quick_aapl_button ui then st "session_state.quick_symbol" "AAPL" else ret tt) ;;;
  st "expander" "ℹ️ How to use this app".

End StreamlitStockApp.

(** What the drawing methods put on the page. *)
Local Unset Elimination Schemes.

Inductive widget :=
| Metric (label value : string) (delta delta_color : option string)
| Markdown (text : string)
| Expander (label : string) (expanded : bool) (body : list widget)
| Column (index : nat) (body : list widget).

Local Set Elimination Schemes.

Section Drawing.

Variable fmt_2f : Q -> string.
Variable fmt_comma_0f : Q -> string.

(** [StreamlitStockApp.create_performance_metrics]; [None] and an empty
    [statistics] dictionary are both false. *)
Definition create_performance_metrics (analysis_result : option StockAnalysis)
  : list widget :=
  match analysis_result with
  | None => []
  | Some a =>
      let stats := an_statistics a in
      if (size stats =? 0)%nat then []
      else
        let delta_color :=
          if negb (Qle_bool (stat stats "percent_change") 0) then "normal"
          else "inverse" in
        [ Column 0 [ Metric "Current Price"
                            ("$" +:+ fmt_2f (stat stats "current_price"))
                            (Some (fmt_2f (stat stats "percent_change") +:+ "%"))
                            (Some delta_color) ];
          Column 1 [ Metric "Period High"
                            ("$" +:+ fmt_2f (stat stats "period_high")) None None ];
          Column 2 [ Metric "Period Low"
                            ("$" +:+ fmt_2f (stat stats "period_low")) None None ];
          Column 3 [ Metric "Avg Volume"
                            (fmt_comma_0f (stat stats "avg_volume")) None None ] ]
  end.

(** [StreamlitStockApp.display_trend_analysis] *)
Definition display_trend_analysis (analysis_result : option StockAnalysis)
           (detailed : bool) : list widget :=
  match analysis_result with
  | None => []
  | Some a =>
      let trends := an_trends a in
      if (size trends =? 0)%nat then []
      else
        let trend_direction := default "unknown" (trends !! "trend_direction") in
        let trend_color :=
          if String.eqb trend_direction "bullish" then "🟢"
          else if String.eqb trend_direction "bearish" then "🔴"
          else "⚪" in
        let volatility := default "unknown" (trends !! "volatility") in
        [ Markdown "### 📈 Trend Analysis";
          Column 0 [ Markdown ("**Trend Direction:** " +:+ trend_color +:+ " "
                                 +:+ upper trend_direction) ];
          Column 1 [ Markdown ("**Volatility:** " +:+ upper volatility) ] ]
        ++ (if detailed && negb (String.eqb (default "" (trends !! "analysis")) "")
            then [ Expander "Detailed Trend Analysis" true
                            [ Markdown (default "" (trends !! "analysis")) ] ]
            else [])
  end.

End Drawing.

End App.

(* ===================================================================== *)
(** ** Loading a module: evaluation of its top-level statements *)
(* ===================================================================== *)

Module ModuleLoad.

(** A [def] inside a class body: its name and the names that occur in
    its parameter and return annotations, in evaluation order.  Without
    [from __future__ import annotations] the annotations are evaluated
    when the [def] statement runs. *)
Record funcdef := mk_funcdef {
  fn_name : string;
  fn_annotation_names : list string
}.

Inductive stmt :=
| Import (module : string) (binds : list string)
| ClassDef (name : string) (body : list funcdef)
| AssignCall (target callee : string).

Definition builtins : gset string :=
  list_to_set ["str"; "int"; "float"; "bool"; "len"; "sum"; "print"; "max"; "min"; "round"].

Definition name_error (name : string) : exn :=
  mk_exn NameError ("name '" +:+ name +:+ "' is not defined").

(** Look every name up in the given scopes; the first unbound one raises. *)
Fixpoint resolve_all (scope : gset string) (names : list string) : option exn :=
  match names with
  | [] => None
  | n :: rest =>
      if bool_decide (n ∈ scope) then resolve_all scope rest
      else Some (name_error n)
  end.

(** Run the [def]s of a class body in order; a [def] binds its name in
    the class namespace after its annotations were evaluated. *)
Fixpoint exec_class_body (globals locals : gset string) (body : list funcdef)
  : option exn :=
  match body with
  | [] => None
  | f :: rest =>
      match resolve_all (locals ∪ globals ∪ builtins) (fn_annotation_names f) with
      | Some e => Some e
      | None => exec_class_body globals ({[ fn_name f ]} ∪ locals) rest
      end
  end.

(** One top-level statement: the new module namespace, or the exception.
    [importable] tells which modules can be imported. *)
Definition exec_stmt (importable : string -> bool) (globals : gset string) (s : stmt)
  : gset string + exn :=
  match s with
  | Import m binds =>
      if importable m then inl (list_to_set binds ∪ globals)
      else inr (mk_exn ModuleNotFoundError ("No module named '" +:+ m +:+ "'"))
  | ClassDef name body =>
      match exec_class_body globals ∅ body with
      | Some e => inr e
      | None => inl ({[ name ]} ∪ globals)
      end
  | AssignCall target callee =>
      match resolve_all (globals ∪ builtins) [callee] with
      | Some e => inr e
      | None => inl ({[ target ]} ∪ globals)
      end
  end.

(** Run the statements in order; stop at the first exception.  Returns
    the namespace reached and the exception, if any. *)
Fixpoint exec_module (importable : string -> bool) (globals : gset string)
         (body : list stmt) : gset string * option exn :=
  match body with
  | [] => (globals, None)
  | s :: rest =>
      match exec_stmt importable globals s with
      | inl globals' => exec_module importable globals' rest
      | inr e => (globals, Some e)
      end
  end.

(** [from <module> import names] in some other module: the module body
    is run first, and its exception, if any, reaches the importer. *)
Definition import_from (importable : string -> bool) (body : list stmt)
           (names : list string) : option exn :=
  match exec_module importable ∅ body with
  | (_, Some e) => Some e
  | (globals, None) =>
      match List.find (fun n => negb (bool_decide (n ∈ globals))) names with
      | Some n => Some (mk_exn (OtherException "ImportError")
                               ("cannot import name '" +:+ n +:+ "'"))
      | None => None
      end
  end.

(** The top-level statements of src/mcp/vantage_client.py, in order. *)
Definition vantage_client_py : list stmt :=
  [ Import "requests" ["requests"];
    Import "json" ["json"];
    Import "typing" ["Dict"; "Any"; "Optional"];
    Import "asyncio" ["asyncio"];
    Import "..models.schemas" ["StockRequest"; "StockDataPoint"];
    Import "config" ["config"];
    Import "..utils.helpers" ["create_sample_data"];
    ClassDef "VantageMCPServer"
      [ mk_funcdef "__init__" [];
        mk_funcdef "get_stock_data" ["StockRequest"; "Dict"; "str"; "Any"];
        mk_funcdef "get_technical_indicators"
                   ["str"; "List"; "StockDataPoint"; "Dict"; "str"; "Any"] ];
    AssignCall "vantage_client" "VantageMCPServer" ].

Definition imported_modules (body : list stmt) : list string :=
  flat_map (fun s => match s with Import m _ => [m] | _ => [] end) body.

End ModuleLoad.

(* ===================================================================== *)
(** ** Vocabulary of the statements, and concrete inputs *)
(* ===================================================================== *)

(** [returns c w Q]: run from [w], the computation [c] returns a value
    and a world that satisfy [Q] (and so does not raise). *)
Definition returns {A} (c : M A) (w : world) (Q : A -> world -> Prop) : Prop :=
  match c w with
  | (Return a, w') => Q a w'
  | (Raise _, _) => False
  end.

(** The worlds [w] and [w'] differ at most in the number of random words
    consumed. *)
Definition only_draws (w w' : world) : Prop :=
  entropy w' = entropy w /\ clock w' = clock w /\ trace w' = trace w.

(** The invariant of one generated record. *)
Definition point_ok (p : DayRecord) : Prop :=
  (Qmax (open p) (close p) <= high p)%Q /\
  (low p <= Qmin (open p) (close p))%Q /\
  1000000 <= volume p <= 5000000.

(** The days [create_sample_data] keeps when called at time [now]: the
    weekdays among 250 consecutive days from 365 days before [now]. *)
Definition sample_days (now : Z) : list Z :=
  List.filter (fun day => weekday day <? 5)
              (List.map (fun i => now - timedelta 365 + timedelta i) (seqZ 0 250)).

(** A fixed world for concrete runs: noon of 2024-01-01 (ordinal 738886),
    no effects yet, and an arbitrary sequence of raw random words. *)
Definition world0 : world :=
  {| entropy := fun n => 6364136223846793005 * (Z.of_nat n + 1) * (Z.of_nat n + 3)
                         + 1442695040888963407;
     cursor := 0;
     clock := timedelta 738886 + 43200;
     trace := [] |}.

(** The same moment with another sequence of raw random words. *)
Definition world0' : world :=
  {| entropy := fun n => 2862933555777941757 * (Z.of_nat n + 2) + 3037000493;
     cursor := 0;
     clock := timedelta 738886 + 43200;
     trace := [] |}.

(** A provider that answers every POST with status 503 and no usable body. *)
Definition network_503 (w : world) (url : string) (hdrs : list (string * string))
           (body : Vantage.StockDataPayload) : Py.result (Vantage.Response unit) :=
  Return (Vantage.mk_Response 503 (Raise (mk_exn ValueError "no JSON"))).

Definition request0 : StockRequest :=
  {| req_symbol := "AMZN"; req_period := P1y;
     req_start_date := None; req_end_date := None |}.

Definition live_env : gmap string string :=
  {[ "MCP_SERVER_URL" := "http://localhost:8000" ]}.

(** A graph whose first node fails. *)
Definition ainvoke_failing (state : gmap string pyval) : M (gmap string pyval) :=
  raise (mk_exn (OtherException "RuntimeError") "fetch failed").

(** A graph that stores an error-free terminal state. *)
Definition ainvoke_done (state : gmap string pyval) : M (gmap string pyval) :=
  ret (<["processed_data" := VOther true "{...}"]> state).

(** Stand-ins for Python's number formatting and object printing. *)
Definition fmt_stub (x : Q) : string := "?".

Definition str_period_stub (p : TimePeriod) : string := period_value p.

Definition str_object_stub (v : pyval) : string := "<object>".

(** An operating system whose child process terminates with status 3. *)
Definition spawn_exit_3 (argv : list string) : Py.result Z := Return 3.

(** A run in which the user ticked the custom date range and picked
    2024-01-01 both as start and as end, then pressed the analyze button. *)
Definition ui_same_day : App.ui_input :=
  {| App.symbol_text := "amzn";
     App.selected_period := "1 Year";
     App.use_custom_dates := true;
     App.start_date_input := Some 738886;
     App.end_date_input := Some 738886;
     App.show_technical_box := true;
     App.show_volume_box := true;
     App.detailed_analysis_box := true;
     App.analyze_button := true;
     App.quick_amzn_button := false;
     App.quick_aapl_button := false |}.

Definition analyze_stub (sym per : string) (start_date end_date : option string)
  : M (gmap string pyval) :=
  ret ∅.

Definition display_stub (analysis : pyval) (show_volume detailed : bool) : M unit :=
  ret tt.

Definition all_importable (m : string) : bool := true.

(** The early return of [setup_sidebar] is taken: a custom range with both
    dates picked and the start not before the end. *)
Definition dates_rejected (ui : App.ui_input) : bool :=
  App.use_custom_dates ui &&
  match App.start_date_input ui, App.end_date_input ui with
  | Some s, Some e => s >=? e
  | _, _ => false
  end.

(** The events [run] adds after the analysis branch: the quick-pick
    buttons and the help panel. *)
Definition run_footer (ui : App.ui_input) : list event :=
  [ EvStreamlit "sidebar.markdown" "---";
    EvStreamlit "sidebar.markdown" "### 💡 Quick Analysis" ]
  ++ (if App.quick_amzn_button ui
      then [EvStreamlit "session_state.quick_symbol" "AMZN"] else [])
  ++ (if App.quick_aapl_button ui
      then [EvStreamlit "session_state.quick_symbol" "AAPL"] else [])
  ++ [ EvStreamlit "expander" "ℹ️ How to use this app" ].

(** The events [run] and [setup_sidebar] add before the analysis branch
    when the sidebar returns a configuration. *)
Definition run_header : list event :=
  [ EvStreamlit "markdown" "📈 AI Stock Trend Analyzer";
    EvStreamlit "markdown"
      "Analyze stock trends using AI-powered analysis with MCP Server integration";
    EvStreamlit "sidebar.title" "📊 Stock Analysis Configuration";
    EvStreamlit "sidebar.markdown" "---";
    EvStreamlit "sidebar.subheader" "Analysis Options" ].

(** The world [w] with the events [evs] appended to its trace. *)
Definition after (w : world) (evs : list event) : world :=
  mk_world (entropy w) (cursor w) (clock w) (trace w ++ evs).

(** A sidebar state with no custom range and the analyze button pressed. *)
Definition ui_pressed : App.ui_input :=
  {| App.symbol_text := "amzn";
     App.selected_period := "1 Year";
     App.use_custom_dates := false;
     App.start_date_input := None;
     App.end_date_input := None;
     App.show_technical_box := true;
     App.show_volume_box := true;
     App.detailed_analysis_box := true;
     App.analyze_button := true;
     App.quick_amzn_button := false;
     App.quick_aapl_button := false |}.

(** The same sidebar state with an empty symbol box. *)
Definition ui_no_symbol : App.ui_input :=
  {| App.symbol_text := "";
     App.selected_period := "1 Year";
     App.use_custom_dates := false;
     App.start_date_input := None;
     App.end_date_input := None;
     App.show_technical_box := true;
     App.show_volume_box := true;
     App.detailed_analysis_box := true;
     App.analyze_button := true;
     App.quick_amzn_button := false;
     App.quick_aapl_button := false |}.

(** A sidebar state with a valid custom range, the analyze button not
    pressed and one quick-pick button pressed. *)
Definition ui_idle : App.ui_input :=
  {| App.symbol_text := "aapl";
     App.selected_period := "3 Months";
     App.use_custom_dates := true;
     App.start_date_input := Some 738800;
     App.end_date_input := Some 738886;
     App.show_technical_box := true;
     App.show_volume_box := false;
     App.detailed_analysis_box := true;
     App.analyze_button := false;
     App.quick_amzn_button := false;
     App.quick_aapl_button := true |}.

(** A provider that answers every POST with status 200 and the body [tt]. *)
Definition network_200 (w : world) (url : string) (hdrs : list (string * string))
           (body : Vantage.StockDataPayload) : Py.result (Vantage.Response unit) :=
  Return (Vantage.mk_Response 200 (Return tt)).

(** A client library that fails before anything is sent. *)
Definition network_type_error (w : world) (url : string) (hdrs : list (string * string))
           (body : Vantage.StockDataPayload) : Py.result (Vantage.Response unit) :=
  Raise (mk_exn TypeError "Object of type TimePeriod is not JSON serializable").

(** An indicator endpoint that is unreachable. *)
Definition indicator_network_down (w : world) (url : string)
           (hdrs : list (string * string)) (sym : string)
           (points : list StockDataPoint) : Py.result (Vantage.Response unit) :=
  Raise (mk_exn (RequestException "ConnectionError") "connection refused").

(** A data point that closes at [c]. *)
Definition point_closing (c : Q) : StockDataPoint :=
  {| pt_date := "2024-01-01"; pt_open := c; pt_high := c; pt_low := c;
     pt_close := c; pt_volume := 1000000; pt_adjusted_close := c |}.

(** An analysis with a trend, a narrative and one extra statistic. *)
Definition analysis0 : StockAnalysis :=
  {| an_symbol := "AMZN";
     an_period := P1y;
     an_data_points := [];
     an_statistics := {[ "current_price" := 101 # 1; "percent_change" := 0 # 1 ]};
     an_trends := {[ "trend_direction" := "Bullish"; "analysis" := "Sideways." ]};
     an_summary := {[ "total_data_points" := 0 ]} |}.

(** The prices of a record lie around the base price [base] as the draws
    of [sample_point] allow. *)
Definition point_within (base : Z) (p : DayRecord) : Prop :=
  (inject_Z (base - 2) <= open p)%Q /\ (open p <= inject_Z (base + 2))%Q /\
  (inject_Z (base - 7) <= close p)%Q /\ (close p <= inject_Z (base + 7))%Q /\
  (inject_Z (base - 2) <= high p)%Q /\ (high p <= inject_Z (base + 10))%Q /\
  (inject_Z (base - 10) <= low p)%Q /\ (low p <= inject_Z (base + 2))%Q /\
  adjusted_close p = close p.

(** The URL and the payload of the POST that [get_stock_data] makes. *)
Definition url (config : Config.Config) : string :=
  Config.MCP_SERVER_URL config +:+ "/stock/data".

Definition payload (req : StockRequest) : Vantage.StockDataPayload :=
  Vantage.mk_StockDataPayload (req_symbol req) (req_period req)
                              (req_start_date req) (req_end_date req).

(** The sidebar state [ui] with the technical-indicator box set to [b]. *)
Definition with_show_technical (b : bool) (ui : App.ui_input) : App.ui_input :=
  {| App.symbol_text := App.symbol_text ui;
     App.selected_period := App.selected_period ui;
     App.use_custom_dates := App.use_custom_dates ui;
     App.start_date_input := App.start_date_input ui;
     App.end_date_input := App.end_date_input ui;
     App.show_technical_box := b;
     App.show_volume_box := App.show_volume_box ui;
     App.detailed_analysis_box := App.detailed_analysis_box ui;
     App.analyze_button := App.analyze_button ui;
     App.quick_amzn_button := App.quick_amzn_button ui;
     App.quick_aapl_button := App.quick_aapl_button ui |}.

(** The events of one call of [run_analysis] up to the analyze operation. *)
Definition analysis_started (sym per : string) : list event :=
  [ EvStreamlit "spinner" ("Analyzing " +:+ sym +:+ " for " +:+ per +:+ " period...");
    EvAnalyze sym per ].

(** An analyze operation that always returns [m]. *)
Definition analyze_returning (m : gmap string pyval)
           (sym per : string) (start_date end_date : option string)
  : M (gmap string pyval) :=
  ret m.

(* ===================================================================== *)
(** ** Reasoning about computations *)
(* ===================================================================== *)

(** *** The standard-library model on known values *)

Example strftime_2024_01_01 : strftime_Ymd (timedelta 738886 + 3600) = "2024-01-01".
Proof. reflexivity. Qed.

Example strftime_2024_02_29 : strftime_Ymd (timedelta 738945) = "2024-02-29".
Proof. reflexivity. Qed.

Example strftime_1999_12_31 : strftime_Ymd (timedelta 730119) = "1999-12-31".
Proof. reflexivity. Qed.

Example weekday_2024_01_01 : weekday (timedelta 738886) = 0.
Proof. reflexivity. Qed.

Example round2_tie : round2 (1005 # 1000) = (100 # 100)%Q /\ round2 (1015 # 1000) = (102 # 100)%Q.
Proof. split; reflexivity. Qed.

Example upper_amzn : upper "amzn" = "AMZN".
Proof. reflexivity. Qed.

Lemma only_draws_refl w : only_draws w w.
Proof. repeat split. Qed.

Lemma only_draws_trans w1 w2 w3 :
  only_draws w1 w2 -> only_draws w2 w3 -> only_draws w1 w3.
Proof.
  intros (E1 & C1 & T1) (E2 & C2 & T2).
  repeat split; congruence.
Qed.

Lemma returns_elim {A} (c : M A) w (Q : A -> world -> Prop) :
  returns c w Q -> exists a w', c w = (Return a, w') /\ Q a w'.
Proof.
  unfold returns. destruct (c w) as [[a | e] w']; [ | intros []].
  intros H. exists a, w'. split; [reflexivity | exact H].
Qed.

Lemma returns_intro {A} (c : M A) w (Q : A -> world -> Prop) a w' :
  c w = (Return a, w') -> Q a w' -> returns c w Q.
Proof. unfold returns. intros -> H. exact H. Qed.

Lemma returns_ret {A} (a : A) w (Q : A -> world -> Prop) :
  Q a w -> returns (ret a) w Q.
Proof. intros H. exact H. Qed.

Lemma returns_bind {A B} (c : M A) (k : A -> M B) w (Q : B -> world -> Prop) :
  returns c w (fun a w' => returns (k a) w' Q) -> returns (Py.bind c k) w Q.
Proof.
  unfold returns, Py.bind. destruct (c w) as [[a | e] w']; [ | intros []].
  intros H. exact H.
Qed.

Lemma returns_mono {A} (c : M A) w (Q Q' : A -> world -> Prop) :
  returns c w Q -> (forall a w', Q a w' -> Q' a w') -> returns c w Q'.
Proof.
  unfold returns. destruct (c w) as [[a | e] w']; [ | intros []].
  intros H HQ. apply HQ, H.
Qed.

(** *** The random generator stays within its ranges *)

Lemma next_raw_spec w :
  returns next_raw w (fun _ w' => only_draws w w').
Proof. unfold returns, next_raw, only_draws. simpl. repeat split. Qed.

Lemma random_spec w :
  returns random w (fun q w' => (0 <= q)%Q /\ (q <= 1)%Q /\ only_draws w w').
Proof.
  unfold random. apply returns_bind.
  eapply returns_mono; [apply next_raw_spec | ].
  intros r w' Hw. apply returns_ret.
  assert (Hm : 0 <= r mod 2 ^ 53 < 2 ^ 53) by (apply Z.mod_pos_bound; lia).
  split; [ | split; [ | exact Hw]].
  - unfold Qle. simpl. lia.
  - unfold Qle. simpl. lia.
Qed.

Lemma uniform_spec (a b : Q) w :
  (a <= b)%Q ->
  returns (uniform a b) w (fun q w' => (a <= q)%Q /\ (q <= b)%Q /\ only_draws w w').
Proof.
  intros Hab. unfold uniform. apply returns_bind.
  eapply returns_mono; [apply random_spec | ].
  intros r w' (H0 & H1 & Hw). apply returns_ret.
  split; [ | split; [ | exact Hw]]; nra.
Qed.

Lemma randint_spec (a b : Z) w :
  a <= b ->
  returns (randint a b) w (fun z w' => a <= z <= b /\ only_draws w w').
Proof.
  intros Hab. unfold randint. apply returns_bind.
  eapply returns_mono; [apply next_raw_spec | ].
  intros r w' Hw. apply returns_ret.
  assert (Hm : 0 <= r mod (b - a + 1) < b - a + 1) by (apply Z.mod_pos_bound; lia).
  split; [lia | exact Hw].
Qed.

(** *** Rounding is monotone *)

Lemma round_half_even_bounds x :
  Qfloor x <= round_half_even x <= Qfloor x + 1.
Proof.
  unfold round_half_even.
  destruct (Qcompare _ _); [destruct (Z.even _) | | ]; lia.
Qed.

Lemma round_half_even_mono x y :
  (x <= y)%Q -> round_half_even x <= round_half_even y.
Proof.
  intros Hxy.
  pose proof (Qfloor_resp_le _ _ Hxy) as Hf.
  destruct (Z.eq_dec (Qfloor x) (Qfloor y)) as [Heq | Hne].
  - unfold round_half_even. rewrite <- Heq.
    destruct (Qcompare_spec (x - inject_Z (Qfloor x)) (1 # 2)) as [Hx | Hx | Hx];
      destruct (Qcompare_spec (y - inject_Z (Qfloor x)) (1 # 2)) as [Hy | Hy | Hy];
      try (destruct (Z.even (Qfloor x))); try lia; exfalso; lra.
  - pose proof (round_half_even_bounds x). pose proof (round_half_even_bounds y). lia.
Qed.

Lemma round2_mono x y : (x <= y)%Q -> (round2 x <= round2 y)%Q.
Proof.
  intros Hxy. unfold round2, Qle. simpl.
  assert (H : round_half_even (x * 100) <= round_half_even (y * 100))
    by (apply round_half_even_mono; lra).
  lia.
Qed.

(** *** The synthetic series *)

Lemma sample_point_spec base_price day w :
  returns (sample_point base_price day) w
          (fun p w' => point_ok p /\ date p = strftime_Ymd day /\ only_draws w w').
Proof.
  unfold sample_point.
  apply returns_bind. eapply returns_mono; [apply uniform_spec; lra | ].
  intros u1 w1 (_ & _ & W1). cbv beta.
  apply returns_bind. eapply returns_mono; [apply uniform_spec; lra | ].
  intros u2 w2 (_ & _ & W2). cbv beta.
  apply returns_bind. eapply returns_mono; [apply uniform_spec; lra | ].
  intros u3 w3 (H3 & _ & W3). cbv beta.
  apply returns_bind. eapply returns_mono; [apply uniform_spec; lra | ].
  intros u4 w4 (H4 & _ & W4). cbv beta.
  apply returns_bind. eapply returns_mono; [apply randint_spec; lia | ].
  intros v w5 (Hv & W5). apply returns_ret.
  split; [ | split; [reflexivity | ]].
  - unfold point_ok. simpl.
    set (o := (inject_Z base_price + u1)%Q).
    set (c := (o + u2)%Q).
    pose proof (Q.le_max_l o c). pose proof (Q.le_max_r o c).
    pose proof (Q.le_min_l o c). pose proof (Q.le_min_r o c).
    split; [ | split; [ | exact Hv]].
    + apply Q.max_lub; apply round2_mono; lra.
    + apply Q.min_glb; apply round2_mono; lra.
  - eauto using only_draws_trans.
Qed.

Lemma sample_loop_spec base_price current_date range : forall w,
  returns (sample_loop base_price current_date range) w
    (fun ps w' =>
       List.map date ps =
         List.map strftime_Ymd
           (List.filter (fun day => weekday day <? 5)
                        (List.map (fun i => current_date + timedelta i) range)) /\
       Forall point_ok ps /\ only_draws w w').
Proof.
  induction range as [ | i rest IH]; intros w.
  - apply returns_ret. repeat split. constructor.
  - cbn [sample_loop List.map List.filter].
    destruct (weekday (current_date + timedelta i) <? 5).
    + apply returns_bind.
      eapply returns_mono; [apply sample_point_spec | ].
      intros p w1 (Hp & Hd & W1). cbv beta.
      apply returns_bind.
      eapply returns_mono; [apply IH | ].
      intros ps w2 (Hds & Hps & W2). apply returns_ret.
      split; [ | split].
      * cbn [List.map]. rewrite Hd, Hds. reflexivity.
      * constructor; assumption.
      * eauto using only_draws_trans.
    + apply IH.
Qed.

Lemma create_sample_data_spec {P} (sym : string) (per : P) w :
  returns (create_sample_data sym per) w
    (fun d w' =>
       symbol d = sym /\ period d = per /\
       List.map date (data d) = List.map strftime_Ymd (sample_days (clock w)) /\
       Forall point_ok (data d) /\ only_draws w w').
Proof.
  unfold create_sample_data.
  apply returns_bind. eapply returns_mono; [apply randint_spec; lia | ].
  intros r w1 (_ & W1). cbv beta.
  apply returns_bind. unfold returns at 1, datetime_now.
  apply returns_bind. eapply returns_mono; [apply sample_loop_spec | ].
  intros ps w2 (Hds & Hps & W2). apply returns_ret. simpl.
  destruct W1 as (E1 & C1 & T1).
  repeat split; try assumption.
  - rewrite Hds. unfold sample_days. rewrite C1. reflexivity.
  - destruct W2 as (E2 & C2 & T2). congruence.
  - destruct W2 as (E2 & C2 & T2). congruence.
  - destruct W2 as (E2 & C2 & T2). congruence.
Qed.

(** *** The window of dates *)

Lemma toordinal_shift now i :
  toordinal (now - timedelta 365 + timedelta i) = toordinal now - 365 + i.
Proof.
  unfold toordinal, timedelta.
  replace (now - 86400 * 365 + 86400 * i) with (now + (i - 365) * 86400) by ring.
  rewrite Z.div_add by lia. lia.
Qed.

Lemma weekday_shift now i :
  weekday (now - timedelta 365 + timedelta i) = ((toordinal now - 359) mod 7 + i) mod 7.
Proof.
  unfold weekday. rewrite toordinal_shift.
  rewrite Zplus_mod_idemp_l. f_equal. lia.
Qed.

Lemma filter_map_length {A B} (f : A -> B) (p : B -> bool) (l : list A) :
  length (List.filter p (List.map f l)) = length (List.filter (fun a => p (f a)) l).
Proof.
  induction l as [ | a l IH]; [reflexivity | ].
  cbn [List.map List.filter]. destruct (p (f a)); simpl; congruence.
Qed.

Lemma sample_days_length now :
  (178 <= length (sample_days now) <= 180)%nat.
Proof.
  unfold sample_days. rewrite filter_map_length.
  rewrite (List.filter_ext _ (fun i => ((toordinal now - 359) mod 7 + i) mod 7 <? 5))
    by (intros i; rewrite weekday_shift; reflexivity).
  assert (Hr : 0 <= (toordinal now - 359) mod 7 < 7) by (apply Z.mod_pos_bound; lia).
  set (r := (toordinal now - 359) mod 7) in *.
  assert (Hc : r = 0 \/ r = 1 \/ r = 2 \/ r = 3 \/ r = 4 \/ r = 5 \/ r = 6) by lia.
  clearbody r.
  destruct Hc as [-> | [-> | [-> | [-> | [-> | [-> | ->]]]]]]; vm_compute; lia.
Qed.

Lemma sample_days_window now day :
  In day (sample_days now) ->
  weekday day < 5 /\
  toordinal now - 365 <= toordinal day <= toordinal now - 116.
Proof.
  unfold sample_days. rewrite List.filter_In, List.in_map_iff.
  intros [(i & <- & Hi) Hw].
  apply list_elem_of_In, elem_of_seqZ in Hi.
  rewrite toordinal_shift. split; [ | lia].
  apply Z.ltb_lt, Hw.
Qed.

(* ===================================================================== *)
(** ** The synthetic series generator (src/utils/helpers.py) *)
(* ===================================================================== *)

(** C6: the generator returns, for every symbol, period and world, between
    178 and 180 records (never about 250); their dates are weekdays, and
    they lie between 365 and 116 days before the day of generation, so the
    last date is at least 116 days old. *)
Theorem create_sample_data_window {P} (sym : string) (per : P) (w : world) :
  exists d w',
    create_sample_data sym per w = (Return d, w') /\
    symbol d = sym /\ period d = per /\
    (178 <= length (data d) <= 180)%nat /\
    exists days,
      List.map date (data d) = List.map strftime_Ymd days /\
      Forall (fun day =>
                weekday day < 5 /\
                toordinal (clock w) - 365 <= toordinal day <= toordinal (clock w) - 116)
             days.
Proof.
  destruct (returns_elim _ _ _ (create_sample_data_spec sym per w))
    as (d & w' & Hrun & Hs & Hp & Hd & _ & _).
  exists d, w'. repeat split; try assumption.
  - apply (f_equal (@length _)) in Hd. rewrite !length_map in Hd.
    rewrite Hd. apply sample_days_length.
  - apply (f_equal (@length _)) in Hd. rewrite !length_map in Hd.
    rewrite Hd. apply sample_days_length.
  - exists (sample_days (clock w)). split; [exact Hd | ].
    apply List.Forall_forall. intros day Hin.
    apply sample_days_window, Hin.
Qed.

(** C7: every record the generator produces has, after rounding,
    high >= max(open, close), low <= min(open, close), and an integer
    volume between 1,000,000 and 5,000,000. *)
Theorem create_sample_data_invariant {P} (sym : string) (per : P) (w : world) :
  exists d w',
    create_sample_data sym per w = (Return d, w') /\
    Forall (fun p =>
              (Qmax (open p) (close p) <= high p)%Q /\
              (low p <= Qmin (open p) (close p))%Q /\
              1000000 <= volume p <= 5000000)
           (data d).
Proof.
  destruct (returns_elim _ _ _ (create_sample_data_spec sym per w))
    as (d & w' & Hrun & _ & _ & _ & Hok & _).
  exists d, w'. split; [exact Hrun | exact Hok].
Qed.

Example create_sample_data_2024_01_01 :
  match fst (create_sample_data "AMZN" "1y" world0) with
  | Return d =>
      length (data d) = 179%nat /\
      head (List.map date (data d)) = Some "2023-01-02" /\
      last (List.map date (data d)) = Some "2023-09-07"
  | Raise _ => False
  end.
Proof. vm_compute. repeat split. Qed.

(** C8, as stated, fails: two invocations in a row, with the same
    arguments and at the same time, return different outputs. *)
Lemma create_sample_data_not_deterministic :
  let r1 := create_sample_data "AMZN" "1y" world0 in
  let r2 := create_sample_data "AMZN" "1y" (snd r1) in
  clock (snd r1) = clock world0 /\ fst r1 <> fst r2.
Proof.
  cbv zeta. split.
  - vm_compute. reflexivity.
  - intros H.
    apply (f_equal (fun r => match r with
                             | Return d => List.map volume (firstn 3 (data d))
                             | Raise _ => []
                             end)) in H.
    vm_compute in H. discriminate H.
Qed.

(** C8, amended: at a fixed generation time the symbol, the period and the
    sequence of dates of the output do not depend on the random generator;
    prices and volumes do. *)
Theorem create_sample_data_same_dates {P} (sym : string) (per : P) (w1 w2 : world) :
  clock w1 = clock w2 ->
  exists d1 w1' d2 w2',
    create_sample_data sym per w1 = (Return d1, w1') /\
    create_sample_data sym per w2 = (Return d2, w2') /\
    symbol d1 = symbol d2 /\ period d1 = period d2 /\
    List.map date (data d1) = List.map date (data d2).
Proof.
  intros Hc.
  destruct (returns_elim _ _ _ (create_sample_data_spec sym per w1))
    as (d1 & w1' & Hrun1 & Hs1 & Hp1 & Hd1 & _).
  destruct (returns_elim _ _ _ (create_sample_data_spec sym per w2))
    as (d2 & w2' & Hrun2 & Hs2 & Hp2 & Hd2 & _).
  exists d1, w1', d2, w2'. repeat split; try assumption; congruence.
Qed.

Lemma create_sample_data_same_dates_witness :
  clock world0 = clock world0' /\
  exists d1 w1' d2 w2',
    create_sample_data "AMZN" P1y world0 = (Return d1, w1') /\
    create_sample_data "AMZN" P1y world0' = (Return d2, w2') /\
    symbol d1 = symbol d2 /\ period d1 = period d2 /\
    List.map date (data d1) = List.map date (data d2).
Proof.
  split; [reflexivity | ].
  apply (create_sample_data_same_dates "AMZN" P1y world0 world0'). reflexivity.
Defined.

(* ===================================================================== *)
(** ** The market-data client (src/mcp/vantage_client.py) *)
(* ===================================================================== *)

Section ClientProperties.

Variable Json : Type.
Variable network :
  world -> string -> list (string * string) -> Vantage.StockDataPayload ->
  Py.result (Vantage.Response Json).

Lemma sample_for_spec (req : StockRequest) (w : world) :
  exists d w',
    Vantage.sample_for Json req w = (Return (Vantage.Sample d), w') /\
    create_sample_data (req_symbol req) (req_period req) w = (Return d, w') /\
    only_draws w w' /\ data d <> [].
Proof.
  destruct (returns_elim _ _ _
              (create_sample_data_spec (req_symbol req) (req_period req) w))
    as (d & w' & Hrun & _ & _ & Hd & _ & Hw).
  exists d, w'. repeat split; try apply Hw; try exact Hrun.
  - unfold Vantage.sample_for, Py.bind. rewrite Hrun. reflexivity.
  - intros Hnil. apply (f_equal (@length _)) in Hd.
    rewrite !length_map, Hnil in Hd.
    pose proof (sample_days_length (clock w)) as Hlen.
    simpl in Hd. lia.
Qed.

(** C3: with the base URL ["mock"] the client sleeps one second, posts
    nothing, and returns what [create_sample_data] yields for the
    request's symbol and period; the data list is not empty. *)
Theorem get_stock_data_mock (config : Config.Config) (req : StockRequest) (w : world) :
  Config.MCP_SERVER_URL config = "mock" ->
  exists d w1 w',
    Vantage.get_stock_data Json network (Vantage.init config) req w
      = (Return (Vantage.Sample d), w') /\
    asyncio_sleep 1 w = (Return tt, w1) /\
    create_sample_data (req_symbol req) (req_period req) w1 = (Return d, w') /\
    trace w' = (trace w ++ [EvSleep 1])%list /\
    data d <> [].
Proof.
  intros Hurl.
  set (w1 := mk_world (entropy w) (cursor w) (clock w + 1) (trace w ++ [EvSleep 1])%list).
  destruct (sample_for_spec req w1) as (d & w' & Hs & Hrun & (_ & _ & Ht) & Hne).
  exists d, w1, w'. repeat split; try assumption.
  unfold Vantage.get_stock_data, Vantage.init. simpl. rewrite Hurl. simpl.
  unfold Py.bind, asyncio_sleep. fold w1. exact Hs.
Qed.

(** C4: in live mode, when the POST comes back with a status other than
    200, or raises a [RequestException], the client returns what
    [create_sample_data] yields for the request's symbol and period, from
    the same clock and random state, and does not raise. *)
Theorem get_stock_data_fallback (config : Config.Config) (req : StockRequest) (w : world) :
  Config.MCP_SERVER_URL config <> "mock" ->
  match network w (Config.MCP_SERVER_URL config +:+ "/stock/data")
                (Vantage.headers (Vantage.init config))
                (Vantage.mk_StockDataPayload (req_symbol req) (req_period req)
                   (req_start_date req) (req_end_date req)) with
  | Return response => Vantage.status_code response <> 200
  | Raise e => except_RequestException (exc_type e) = true
  end ->
  exists d w1 w',
    Vantage.get_stock_data Json network (Vantage.init config) req w
      = (Return (Vantage.Sample d), w') /\
    create_sample_data (req_symbol req) (req_period req) w1 = (Return d, w') /\
    entropy w1 = entropy w /\ cursor w1 = cursor w /\ clock w1 = clock w.
Proof.
  intros Hurl Hnet.
  assert (Hmock : Vantage.use_mock_data (Vantage.init config) = false).
  { simpl. apply String.eqb_neq. exact Hurl. }
  unfold Vantage.get_stock_data. rewrite Hmock.
  unfold try_except, Py.bind at 1, Vantage.requests_post.
  cbn [Vantage.base_url Vantage.init Vantage.headers] in *.
  destruct (network w _ _ _) as [response | e].
  - apply Z.eqb_neq in Hnet. rewrite Hnet.
    unfold Py.bind at 1, print, emit. cbn [entropy cursor clock trace].
    match goal with
    | |- context [Vantage.sample_for Json req ?w1] =>
        destruct (sample_for_spec req w1) as (d & w' & Hs & Hrun & _ & _);
        exists d, w1, w'
    end.
    rewrite Hs. repeat split. exact Hrun.
  - rewrite Hnet.
    unfold Py.bind at 1, print, emit. cbn [entropy cursor clock trace].
    match goal with
    | |- context [Vantage.sample_for Json req ?w1] =>
        destruct (sample_for_spec req w1) as (d & w' & Hs & Hrun & _ & _);
        exists d, w1, w'
    end.
    rewrite Hs. repeat split. exact Hrun.
Qed.

End ClientProperties.

Lemma get_stock_data_mock_witness :
  Config.MCP_SERVER_URL (Config.config ∅) = "mock" /\
  exists d w1 w',
    Vantage.get_stock_data unit network_503 (Vantage.init (Config.config ∅)) request0 world0
      = (Return (Vantage.Sample d), w') /\
    asyncio_sleep 1 world0 = (Return tt, w1) /\
    create_sample_data (req_symbol request0) (req_period request0) w1 = (Return d, w') /\
    trace w' = (trace world0 ++ [EvSleep 1])%list /\
    data d <> [].
Proof.
  split; [reflexivity | ].
  apply (get_stock_data_mock unit network_503 (Config.config ∅) request0 world0).
  reflexivity.
Defined.

Lemma get_stock_data_fallback_witness :
  Config.MCP_SERVER_URL (Config.config live_env) <> "mock" /\
  exists d w1 w',
    Vantage.get_stock_data unit network_503 (Vantage.init (Config.config live_env))
                           request0 world0
      = (Return (Vantage.Sample d), w') /\
    create_sample_data (req_symbol request0) (req_period request0) w1 = (Return d, w') /\
    entropy w1 = entropy world0 /\ cursor w1 = cursor world0 /\ clock w1 = clock world0.
Proof.
  assert (Hurl : Config.MCP_SERVER_URL (Config.config live_env) <> "mock")
    by (vm_compute; discriminate).
  split; [exact Hurl | ].
  apply (get_stock_data_fallback unit network_503 (Config.config live_env) request0 world0).
  - exact Hurl.
  - vm_compute. discriminate.
Defined.

(* ===================================================================== *)
(** ** The orchestrator (src/main.py) *)
(* ===================================================================== *)


Example analyze_stock_bad_period :
  fst (Main.analyze_stock ainvoke_done "amzn" "10y" None None world0)
  = Return {[ "error" := VStr "Analysis failed: '10y' is not a valid TimePeriod" ]}.
Proof. reflexivity. Qed.

Example analyze_stock_graph_failure :
  fst (Main.analyze_stock ainvoke_failing "amzn" "1y" None None world0)
  = Return {[ "error" := VStr "Analysis failed: fetch failed" ]}.
Proof. reflexivity. Qed.

Example analyze_stock_success :
  fst (Main.analyze_stock ainvoke_done "amzn" "1y" None None world0)
  = Return (<["processed_data" := VOther true "{...}"]>
              (Main.initial_state (mk_StockRequest "AMZN" P1y None None))).
Proof. reflexivity. Qed.

(* ===================================================================== *)
(** ** The report formatter (src/utils/helpers.py) *)
(* ===================================================================== *)

Section FormatterProperties.

Variable fmt_2f : Q -> string.
Variable fmt_comma_0f : Q -> string.
Variable str_period : TimePeriod -> string.
Variable str_object : pyval -> string.

(** C9, amended: a result whose only field is an error with a non-empty
    message [m] is rendered as ["Error: "] followed by [m]; a result whose
    ["error"] and ["analysis_result"] are both absent or [None] is rendered
    as ["No analysis result available"]. *)
Theorem format_analysis_output_error_or_empty :
  (forall m : string,
      m <> "" ->
      format_analysis_output fmt_2f fmt_comma_0f str_period str_object
                             {[ "error" := VStr m ]} = Return ("Error: " +:+ m)) /\
  (forall result : gmap string pyval,
      dict_get result "error" = VNone ->
      dict_get result "analysis_result" = VNone ->
      format_analysis_output fmt_2f fmt_comma_0f str_period str_object result
        = Return "No analysis result available").
Proof.
  split.
  - intros m Hm. unfold format_analysis_output, dict_get.
    rewrite lookup_singleton_eq. simpl.
    apply String.eqb_neq in Hm. rewrite Hm. reflexivity.
  - intros result He Ha. unfold format_analysis_output.
    rewrite He, Ha. reflexivity.
Qed.

End FormatterProperties.

(** C9, as stated, fails for the empty message: the truth test on
    ["error"] is false, and the formatter falls through to the
    no-result line. *)
Lemma format_analysis_output_empty_error :
  format_analysis_output fmt_stub fmt_stub str_period_stub str_object_stub
                         {[ "error" := VStr "" ]}
    = Return "No analysis result available" /\
  format_analysis_output fmt_stub fmt_stub str_period_stub str_object_stub
                         {[ "error" := VStr "" ]}
    <> Return ("Error: " +:+ "").
Proof. split; [reflexivity | vm_compute; discriminate]. Qed.

Lemma format_analysis_output_error_or_empty_witness :
  "boom" <> "" /\
  dict_get (∅ : gmap string pyval) "error" = VNone /\
  dict_get (∅ : gmap string pyval) "analysis_result" = VNone /\
  format_analysis_output fmt_stub fmt_stub str_period_stub str_object_stub
                         {[ "error" := VStr "boom" ]} = Return "Error: boom" /\
  format_analysis_output fmt_stub fmt_stub str_period_stub str_object_stub ∅
    = Return "No analysis result available".
Proof.
  pose proof (format_analysis_output_error_or_empty
                fmt_stub fmt_stub str_period_stub str_object_stub) as [Herr Hnone].
  assert (Hne : "boom" <> "") by discriminate.
  split; [exact Hne | ].
  split; [reflexivity | ].
  split; [reflexivity | ].
  split.
  - apply (Herr "boom" Hne).
  - apply (Hnone ∅); reflexivity.
Defined.

(* ===================================================================== *)
(** ** The launcher (run_app.py) *)
(* ===================================================================== *)

(** C10, amended: the launcher starts [sys.executable -m streamlit run
    app.py] as a child process and waits for it; whatever status the
    child terminates with, the launcher itself exits with status 0. *)
Theorem launcher_exit_status_zero
        (sys_executable : string) (spawn : list string -> Py.result Z)
        (w : world) (rc : Z) :
  spawn [sys_executable; "-m"; "streamlit"; "run"; "app.py"] = Return rc ->
  RunApp.exit_status sys_executable spawn w = 0 /\
  trace (snd (RunApp.main sys_executable spawn w))
    = (trace w ++ [EvSpawn [sys_executable; "-m"; "streamlit"; "run"; "app.py"]])%list.
Proof.
  intros Hspawn.
  unfold RunApp.exit_status, RunApp.main, RunApp.subprocess_run, Py.bind, emit, ret.
  simpl. rewrite Hspawn. simpl. split; reflexivity.
Qed.

Lemma launcher_exit_status_zero_witness :
  spawn_exit_3 ["/usr/bin/python3"; "-m"; "streamlit"; "run"; "app.py"] = Return 3 /\
  RunApp.exit_status "/usr/bin/python3" spawn_exit_3 world0 = 0.
Proof.
  split; [reflexivity | ].
  apply (launcher_exit_status_zero "/usr/bin/python3" spawn_exit_3 world0 3).
  reflexivity.
Defined.

(** C10, as stated, fails: the child terminates with status 3 and the
    launcher does not exit with status 3. *)
Lemma launcher_drops_child_status :
  spawn_exit_3 ["/usr/bin/python3"; "-m"; "streamlit"; "run"; "app.py"] = Return 3 /\
  RunApp.exit_status "/usr/bin/python3" spawn_exit_3 world0 <> 3.
Proof. split; [reflexivity | vm_compute; discriminate]. Qed.

(* ===================================================================== *)
(** ** The dashboard (app.py) *)
(* ===================================================================== *)

Lemma setup_sidebar_invalid_dates (ui : App.ui_input) (w : world) (s e : Z) (p : string) :
  App.period_options !! App.selected_period ui = Some p ->
  App.use_custom_dates ui = true ->
  App.start_date_input ui = Some s ->
  App.end_date_input ui = Some e ->
  s >= e ->
  App.setup_sidebar ui w =
    (Return App.Tuple4_None,
     mk_world (entropy w) (cursor w) (clock w)
       ((trace w ++ [EvStreamlit "sidebar.title" "📊 Stock Analysis Configuration"])
          ++ [EvStreamlit "sidebar.error" "Start date must be before end date"])%list).
Proof.
  intros Hp Hc Hs He Hge.
  unfold App.setup_sidebar. rewrite Hp, Hc, Hs, He.
  assert (Hb : (s >=? e) = true) by (apply Z.geb_le; lia).
  rewrite Hb. reflexivity.
Qed.

(** C5: with a custom range whose start is not before its end, the sidebar
    shows its error and returns the tuple of four [None]s; the analyze
    operation is not called; but [run] then fails to unpack that tuple into
    its seven variables and raises [ValueError], so the run does not
    proceed. *)
Theorem run_invalid_dates_raises
        (analyze_stock : string -> string -> option string -> option string ->
                         M (gmap string pyval))
        (display_results : pyval -> bool -> bool -> M unit)
        (str_object : pyval -> string)
        (ui : App.ui_input) (w : world) (s e : Z) :
  is_Some (App.period_options !! App.selected_period ui) ->
  App.use_custom_dates ui = true ->
  App.start_date_input ui = Some s ->
  App.end_date_input ui = Some e ->
  s >= e ->
  exists w',
    App.run analyze_stock display_results str_object ui w
      = (Raise (mk_exn ValueError "not enough values to unpack (expected 7, got 4)"), w') /\
    In (EvStreamlit "sidebar.error" "Start date must be before end date") (trace w') /\
    (forall sym per, In (EvAnalyze sym per) (trace w') -> In (EvAnalyze sym per) (trace w)).
Proof.
  intros [p Hp] Hc Hs He Hge.
  pose proof (setup_sidebar_invalid_dates ui w s e p Hp Hc Hs He Hge) as Hside.
  unfold App.run, Py.bind at 1 2 3, App.st at 1 2, emit.
  cbn [entropy cursor clock trace].
  match goal with
  | |- context [App.setup_sidebar ui ?w1] =>
      pose proof (setup_sidebar_invalid_dates ui w1 s e p Hp Hc Hs He Hge) as Hside1;
      rewrite Hside1
  end.
  cbn [entropy cursor clock trace].
  eexists. split; [reflexivity | ]. cbn [trace]. split.
  - rewrite !List.in_app_iff. simpl. tauto.
  - intros sym per. rewrite !List.in_app_iff. simpl.
    intros [[[[H | H] | H] | H] | H]; try exact H;
      destruct H as [H | []]; discriminate H.
Qed.

Lemma run_invalid_dates_raises_witness :
  is_Some (App.period_options !! App.selected_period ui_same_day) /\
  App.use_custom_dates ui_same_day = true /\
  738886 >= 738886 /\
  exists w',
    App.run analyze_stub display_stub str_object_stub ui_same_day world0
      = (Raise (mk_exn ValueError "not enough values to unpack (expected 7, got 4)"), w') /\
    In (EvStreamlit "sidebar.error" "Start date must be before end date") (trace w') /\
    (forall sym per, In (EvAnalyze sym per) (trace w') ->
                     In (EvAnalyze sym per) (trace world0)).
Proof.
  assert (Hp : is_Some (App.period_options !! App.selected_period ui_same_day))
    by (exists "1y"; reflexivity).
  split; [exact Hp | ].
  split; [reflexivity | ].
  split; [lia | ].
  apply (run_invalid_dates_raises analyze_stub display_stub str_object_stub
           ui_same_day world0 738886 738886 Hp); [reflexivity .. | lia].
Defined.

Example run_same_day_trace :
  trace (snd (App.run analyze_stub display_stub str_object_stub ui_same_day world0))
    = [ EvStreamlit "markdown" "📈 AI Stock Trend Analyzer";
        EvStreamlit "markdown"
          "Analyze stock trends using AI-powered analysis with MCP Server integration";
        EvStreamlit "sidebar.title" "📊 Stock Analysis Configuration";
        EvStreamlit "sidebar.error" "Start date must be before end date" ].
Proof. reflexivity. Qed.

(* ===================================================================== *)
(** ** Loading src/mcp/vantage_client.py *)
(* ===================================================================== *)

Lemma exec_module_importable (imp1 imp2 : string -> bool) (body : list ModuleLoad.stmt) :
  forall globals,
    (forall m, In m (ModuleLoad.imported_modules body) -> imp1 m = imp2 m) ->
    ModuleLoad.exec_module imp1 globals body = ModuleLoad.exec_module imp2 globals body.
Proof.
  induction body as [ | s rest IH]; intros globals Himp; [reflexivity | ].
  cbn [ModuleLoad.exec_module].
  assert (Hs : ModuleLoad.exec_stmt imp1 globals s = ModuleLoad.exec_stmt imp2 globals s).
  { destruct s as [m binds | name cbody | target callee]; try reflexivity.
    cbn [ModuleLoad.exec_stmt]. rewrite (Himp m); [reflexivity | ].
    cbn. left. reflexivity. }
  rewrite Hs. destruct (ModuleLoad.exec_stmt imp2 globals s) as [globals' | e];
    [ | reflexivity].
  apply IH. intros m Hm. apply Himp.
  unfold ModuleLoad.imported_modules in *. cbn [flat_map].
  apply List.in_or_app. right. exact Hm.
Qed.

(** C1: when every module that vantage_client.py imports can be imported,
    running its top-level statements stops in the class body with
    [NameError: name 'List' is not defined]; neither the class
    [VantageMCPServer] (and with it [get_stock_data] and
    [get_technical_indicators]) nor [vantage_client] gets bound, and an
    import of the client raises the same exception. *)
Theorem vantage_client_load_fails (importable : string -> bool) :
  (forall m, In m (ModuleLoad.imported_modules ModuleLoad.vantage_client_py) ->
             importable m = true) ->
  exists globals,
    ModuleLoad.exec_module importable ∅ ModuleLoad.vantage_client_py
      = (globals, Some (mk_exn NameError "name 'List' is not defined")) /\
    ("VantageMCPServer" ∉ globals) /\
    ("vantage_client" ∉ globals) /\
    ModuleLoad.import_from importable ModuleLoad.vantage_client_py ["vantage_client"]
      = Some (mk_exn NameError "name 'List' is not defined").
Proof.
  intros Himp.
  assert (Heq : ModuleLoad.exec_module importable ∅ ModuleLoad.vantage_client_py
                = ModuleLoad.exec_module all_importable ∅ ModuleLoad.vantage_client_py).
  { apply exec_module_importable. intros m Hm. rewrite (Himp m Hm). reflexivity. }
  unfold ModuleLoad.import_from. rewrite Heq.
  destruct (ModuleLoad.exec_module all_importable ∅ ModuleLoad.vantage_client_py)
    as [globals err] eqn:Hrun.
  exists globals.
  assert (Herr : err = Some (mk_exn NameError "name 'List' is not defined")).
  { apply (f_equal snd) in Hrun. simpl in Hrun. rewrite <- Hrun. vm_compute. reflexivity. }
  assert (Hcls : bool_decide ("VantageMCPServer" ∈ globals) = false).
  { apply (f_equal fst) in Hrun. simpl in Hrun. rewrite <- Hrun. vm_compute. reflexivity. }
  assert (Hobj : bool_decide ("vantage_client" ∈ globals) = false).
  { apply (f_equal fst) in Hrun. simpl in Hrun. rewrite <- Hrun. vm_compute. reflexivity. }
  subst err. repeat split.
  - intros Hin. apply bool_decide_eq_false in Hcls. contradiction.
  - intros Hin. apply bool_decide_eq_false in Hobj. contradiction.
Qed.

Lemma vantage_client_load_fails_witness :
  (forall m, In m (ModuleLoad.imported_modules ModuleLoad.vantage_client_py) ->
             all_importable m = true) /\
  ModuleLoad.import_from all_importable ModuleLoad.vantage_client_py ["vantage_client"]
    = Some (mk_exn NameError "name 'List' is not defined").
Proof.
  assert (Himp : forall m, In m (ModuleLoad.imported_modules ModuleLoad.vantage_client_py) ->
                           all_importable m = true) by (intros m _; reflexivity).
  split; [exact Himp | ].
  destruct (vantage_client_load_fails all_importable Himp) as (globals & _ & _ & _ & H).
  exact H.
Defined.

(* ===================================================================== *)
(** ** Further properties: the report formatter *)
(* ===================================================================== *)

Section FormatterMore.

Variable fmt_2f : Q -> string.
Variable fmt_comma_0f : Q -> string.
Variable str_period : TimePeriod -> string.
Variable str_object : pyval -> string.

(** X1: an error that is true wins over everything else in the mapping,
    a complete analysis result included: the output is the error line. *)
Theorem format_error_precedence (result : gmap string pyval) (v : pyval) :
  result !! "error" = Some v ->
  truthy v = true ->
  forall a : StockAnalysis,
    format_analysis_output fmt_2f fmt_comma_0f str_period str_object
                           (<["analysis_result" := VAnalysis a]> result)
    = Return ("Error: " +:+ py_str str_object v).
Proof.
  intros He Hv a. unfold format_analysis_output, dict_get.
  rewrite lookup_insert_ne by discriminate.
  rewrite He, Hv. reflexivity.
Qed.

(** X2: the formatter raises exactly when there is no true error and the
    value under ["analysis_result"] is true without being a
    [StockAnalysis]; the exception is then an [AttributeError]. *)
Theorem format_raises_iff (result : gmap string pyval) :
  (exists e, format_analysis_output fmt_2f fmt_comma_0f str_period str_object result
             = Raise e) <->
  (truthy (dict_get result "error") = false /\
   truthy (dict_get result "analysis_result") = true /\
   forall a, dict_get result "analysis_result" <> VAnalysis a).
Proof.
  unfold format_analysis_output. split.
  - intros [e He].
    destruct (truthy (dict_get result "error")) eqn:Herr.
    + unfold dict_get in Herr. destruct (result !! "error"); [discriminate He | ].
      simpl in Herr. discriminate Herr.
    + destruct (truthy (dict_get result "analysis_result")) eqn:Han;
        [ | discriminate He].
      repeat split. intros a Ha. rewrite Ha in He. discriminate He.
  - intros (Herr & Han & Hna). rewrite Herr, Han. simpl.
    destruct (dict_get result "analysis_result") as [ | b | s | n | r | a | t repr];
      try (eexists; reflexivity).
    exfalso. apply (Hna a). reflexivity.
Qed.

(** X3: the report shows six statistics only and no data point: adding
    any other statistic and replacing the data points leaves the output
    unchanged. *)
Theorem format_ignores_data_points
        (a : StockAnalysis) (points : list StockDataPoint) (key : string) (x : Q) :
  ~ In key ["current_price"; "price_change"; "percent_change";
            "period_high"; "period_low"; "avg_volume"] ->
  format_analysis_output fmt_2f fmt_comma_0f str_period str_object
    {[ "analysis_result" :=
         VAnalysis (mk_StockAnalysis (an_symbol a) (an_period a) points
                                     (<[key := x]> (an_statistics a))
                                     (an_trends a) (an_summary a)) ]}
  = format_analysis_output fmt_2f fmt_comma_0f str_period str_object
      {[ "analysis_result" := VAnalysis a ]}.
Proof.
  intros Hkey. unfold format_analysis_output, dict_get.
  rewrite !lookup_singleton_ne by discriminate.
  rewrite !lookup_singleton_eq. simpl.
  unfold report, stat. simpl.
  rewrite !lookup_insert_ne; [reflexivity | ..];
    intros ->; apply Hkey; simpl; tauto.
Qed.

End FormatterMore.

Lemma format_error_precedence_witness :
  ({[ "error" := VStr "boom" ]} : gmap string pyval) !! "error" = Some (VStr "boom") /\
  truthy (VStr "boom") = true /\
  format_analysis_output fmt_stub fmt_stub str_period_stub str_object_stub
    (<["analysis_result" := VAnalysis analysis0]> {[ "error" := VStr "boom" ]})
  = Return "Error: boom".
Proof.
  split; [reflexivity | ]. split; [reflexivity | ].
  apply (format_error_precedence fmt_stub fmt_stub str_period_stub str_object_stub
           {[ "error" := VStr "boom" ]} (VStr "boom")); reflexivity.
Defined.

Lemma format_ignores_data_points_witness :
  ~ In "data_points" ["current_price"; "price_change"; "percent_change";
                      "period_high"; "period_low"; "avg_volume"] /\
  format_analysis_output fmt_stub fmt_stub str_period_stub str_object_stub
    {[ "analysis_result" :=
         VAnalysis (mk_StockAnalysis (an_symbol analysis0) (an_period analysis0)
                                     [point_closing (101 # 1)]
                                     (<["data_points" := 1 # 1]> (an_statistics analysis0))
                                     (an_trends analysis0) (an_summary analysis0)) ]}
  = format_analysis_output fmt_stub fmt_stub str_period_stub str_object_stub
      {[ "analysis_result" := VAnalysis analysis0 ]}.
Proof.
  assert (Hkey : ~ In "data_points" ["current_price"; "price_change"; "percent_change";
                                     "period_high"; "period_low"; "avg_volume"]).
  { simpl. intros [H | [H | [H | [H | [H | [H | []]]]]]]; discriminate H. }
  split; [exact Hkey | ].
  apply (format_ignores_data_points fmt_stub fmt_stub str_period_stub str_object_stub
           analysis0 [point_closing (101 # 1)] "data_points" (1 # 1) Hkey).
Defined.

(* ===================================================================== *)
(** ** Further properties: the orchestrator *)
(* ===================================================================== *)

Lemma upper_ascii_idempotent (c : ascii) :
  upper_ascii (upper_ascii c) = upper_ascii c.
Proof.
  destruct c as [[] [] [] [] [] [] [] []]; vm_compute; reflexivity.
Qed.

Lemma upper_idempotent (s : string) : upper (upper s) = upper s.
Proof.
  induction s as [ | c s IH]; [reflexivity | ].
  simpl. rewrite upper_ascii_idempotent, IH. reflexivity.
Qed.

(** X4: the symbol is case-insensitive: a symbol and its upper-case form
    lead to the same run of the graph and to the same result. *)
Theorem analyze_stock_case_insensitive
        (ainvoke : gmap string pyval -> M (gmap string pyval))
        (sym per : string) (start_date end_date : option string) (w : world) :
  Main.analyze_stock ainvoke (upper sym) per start_date end_date w
  = Main.analyze_stock ainvoke sym per start_date end_date w.
Proof.
  unfold Main.analyze_stock. rewrite upper_idempotent. reflexivity.
Qed.


(* ===================================================================== *)
(** ** Further properties: the synthetic series generator *)
(* ===================================================================== *)

Lemma round_half_even_of_int (x : Q) (n : Z) :
  x == inject_Z n -> round_half_even x = n.
Proof.
  intros Hx. unfold round_half_even.
  assert (Hf : Qfloor x = n) by (rewrite (Qfloor_comp _ _ Hx); apply Qfloor_Z).
  rewrite Hf.
  destruct (Qcompare_spec (x - inject_Z n) (1 # 2)) as [H | H | H];
    [exfalso; lra | reflexivity | exfalso; lra].
Qed.

Lemma round2_inject_Z (n : Z) : round2 (inject_Z n) == inject_Z n.
Proof.
  unfold round2.
  rewrite (round_half_even_of_int (inject_Z n * 100) (n * 100)).
  - unfold Qeq, inject_Z. simpl. lia.
  - unfold Qeq, inject_Z. simpl. lia.
Qed.

Lemma round2_lower (n : Z) (x : Q) :
  (inject_Z n <= x)%Q -> (inject_Z n <= round2 x)%Q.
Proof.
  intros H. rewrite <- (round2_inject_Z n). apply round2_mono, H.
Qed.

Lemma round2_upper (n : Z) (x : Q) :
  (x <= inject_Z n)%Q -> (round2 x <= inject_Z n)%Q.
Proof.
  intros H. rewrite <- (round2_inject_Z n). apply round2_mono, H.
Qed.

Lemma inject_Z_shift (b k : Z) : inject_Z (b + k) == inject_Z b + inject_Z k.
Proof. rewrite inject_Z_plus. reflexivity. Qed.

Lemma sample_point_within base_price day w :
  returns (sample_point base_price day) w
          (fun p w' => point_within base_price p /\ only_draws w w').
Proof.
  unfold sample_point.
  apply returns_bind. eapply returns_mono; [apply uniform_spec; lra | ].
  intros u1 w1 (L1 & U1 & W1). cbv beta.
  apply returns_bind. eapply returns_mono; [apply uniform_spec; lra | ].
  intros u2 w2 (L2 & U2 & W2). cbv beta.
  apply returns_bind. eapply returns_mono; [apply uniform_spec; lra | ].
  intros u3 w3 (L3 & U3 & W3). cbv beta.
  apply returns_bind. eapply returns_mono; [apply uniform_spec; lra | ].
  intros u4 w4 (L4 & U4 & W4). cbv beta.
  apply returns_bind. eapply returns_mono; [apply randint_spec; lia | ].
  intros v w5 (Hv & W5). apply returns_ret.
  split; [ | eauto using only_draws_trans].
  unfold point_within. simpl.
  set (b := inject_Z base_price).
  set (o := (b + u1)%Q).
  set (c := (o + u2)%Q).
  pose proof (Q.le_max_l o c) as Hmo.
  pose proof (Q.le_min_l o c) as Hno.
  assert (Hmax : (Qmax o c <= b + 7)%Q)
    by (apply Q.max_lub; unfold c, o; lra).
  assert (Hmin : (b - 7 <= Qmin o c)%Q)
    by (apply Q.min_glb; unfold c, o; lra).
  unfold Z.sub.
  repeat split;
    first [ apply round2_lower | apply round2_upper | reflexivity ];
    rewrite inject_Z_shift; fold b; unfold c, o in *;
    cbv [inject_Z Z.opp]; lra.
Qed.

Lemma sample_loop_within base_price current_date range : forall w,
  returns (sample_loop base_price current_date range) w
          (fun ps w' => Forall (point_within base_price) ps /\ only_draws w w').
Proof.
  induction range as [ | i rest IH]; intros w.
  - apply returns_ret. split; [constructor | apply only_draws_refl].
  - cbn [sample_loop].
    destruct (weekday (current_date + timedelta i) <? 5); [ | apply IH].
    apply returns_bind.
    eapply returns_mono; [apply sample_point_within | ].
    intros p w1 (Hp & W1). cbv beta.
    apply returns_bind.
    eapply returns_mono; [apply IH | ].
    intros ps w2 (Hps & W2). apply returns_ret.
    split; [constructor; assumption | eauto using only_draws_trans].
Qed.

(** X6: all records of one output lie around one integer base price
    between 80 and 120: open within 2 of it, close within 7, high at most
    10 above, low at most 10 below, and the adjusted close equal to the
    close.  In particular every price is between 70 and 130. *)
Theorem create_sample_data_price_band {P} (sym : string) (per : P) (w : world) :
  exists d w' base,
    create_sample_data sym per w = (Return d, w') /\
    80 <= base <= 120 /\
    Forall (point_within base) (data d).
Proof.
  assert (H : returns (create_sample_data sym per) w
                (fun d _ => exists base, 80 <= base <= 120 /\
                                         Forall (point_within base) (data d))).
  { unfold create_sample_data.
    apply returns_bind. eapply returns_mono; [apply randint_spec; lia | ].
    intros r w1 (Hr & _). cbv beta.
    apply returns_bind. unfold returns at 1, datetime_now.
    apply returns_bind. eapply returns_mono; [apply sample_loop_within | ].
    intros ps w2 (Hps & _). apply returns_ret.
    exists (100 + r). split; [lia | exact Hps]. }
  destruct (returns_elim _ _ _ H) as (d & w' & Hrun & base & Hb & Hd).
  exists d, w', base. repeat split; try assumption; lia.
Qed.

Lemma create_sample_data_relabel {P1 P2} (s1 s2 : string) (p1 : P1) (p2 : P2) (w : world) :
  create_sample_data s1 p1 w =
  match create_sample_data s2 p2 w with
  | (Return d, w') => (Return (mk_SampleData s1 p1 (data d)), w')
  | (Raise e, w') => (Raise e, w')
  end.
Proof.
  unfold create_sample_data, Py.bind, datetime_now, ret.
  destruct (randint (-20) 20 w) as [[r | e] w1]; [ | reflexivity].
  destruct (sample_loop _ _ _ w1) as [[ps | e] w2]; reflexivity.
Qed.

(* ===================================================================== *)
(** ** Further properties: the market-data client *)
(* ===================================================================== *)

(** X7: the client is in mock mode exactly when [MCP_SERVER_URL] is unset
    or set to ["mock"]. *)
Theorem use_mock_data_iff (env : gmap string string) :
  Vantage.use_mock_data (Vantage.init (Config.config env)) = true <->
  (env !! "MCP_SERVER_URL" = None \/ env !! "MCP_SERVER_URL" = Some "mock").
Proof.
  unfold Vantage.init, Config.config, Config.getenv. simpl.
  destruct (env !! "MCP_SERVER_URL") as [url | ].
  - rewrite String.eqb_eq. split.
    + intros ->. right. reflexivity.
    + intros [H | H]; [discriminate H | congruence].
  - split; [intros _; left; reflexivity | reflexivity].
Qed.

Section ClientMore.

Variable Json : Type.
Variables network network' :
  world -> string -> list (string * string) -> Vantage.StockDataPayload ->
  Py.result (Vantage.Response Json).

(** X8: in mock mode the requested period, the requested date range, the
    symbol and the provider play no role in the series: two requests made
    in the same world get the same list of records. *)
Theorem get_stock_data_mock_ignores_request
        (config : Config.Config) (req1 req2 : StockRequest) (w : world) :
  Config.MCP_SERVER_URL config = "mock" ->
  exists d1 d2 w',
    Vantage.get_stock_data Json network (Vantage.init config) req1 w
      = (Return (Vantage.Sample d1), w') /\
    Vantage.get_stock_data Json network' (Vantage.init config) req2 w
      = (Return (Vantage.Sample d2), w') /\
    data d1 = data d2.
Proof.
  intros Hurl.
  unfold Vantage.get_stock_data, Vantage.init. simpl. rewrite Hurl. simpl.
  unfold Vantage.sample_for, Py.bind, asyncio_sleep.
  set (w1 := mk_world _ _ _ _).
  rewrite (create_sample_data_relabel (req_symbol req1) (req_symbol req2)
             (req_period req1) (req_period req2) w1).
  destruct (returns_elim _ _ _
              (create_sample_data_spec (req_symbol req2) (req_period req2) w1))
    as (d2 & w' & Hrun & _).
  rewrite Hrun.
  exists (mk_SampleData (req_symbol req1) (req_period req1) (data d2)), d2, w'.
  repeat split.
Qed.

(** X9: in live mode, a response with status 200 whose body parses is
    returned as it is; the only effect is one POST to
    [{base_url}/stock/data] with a 30 second timeout, and no random number
    is drawn. *)
Theorem get_stock_data_live_200
        (config : Config.Config) (req : StockRequest) (w : world)
        (response : Vantage.Response Json) (body : Json) :
  Config.MCP_SERVER_URL config <> "mock" ->
  network w (url config) (Vantage.headers (Vantage.init config)) (payload req)
    = Return response ->
  Vantage.status_code response = 200 ->
  Vantage.json response = Return body ->
  Vantage.get_stock_data Json network (Vantage.init config) req w
    = (Return (Vantage.ProviderBody body), after w [EvHttpPost (url config) 30]).
Proof.
  intros Hurl Hnet Hst Hjson.
  assert (Hmock : Vantage.use_mock_data (Vantage.init config) = false)
    by (simpl; apply String.eqb_neq; exact Hurl).
  unfold Vantage.get_stock_data. rewrite Hmock.
  unfold try_except, Py.bind, Vantage.requests_post.
  cbn [Vantage.base_url Vantage.init Vantage.headers] in *.
  unfold url, payload in Hnet. rewrite Hnet, Hst, Hjson. reflexivity.
Qed.

(** X10: the client does raise: in live mode an exception of the POST
    that is not a [RequestException], or such an exception of
    [response.json()] on a status 200 response, reaches the caller. *)
Theorem get_stock_data_propagates
        (config : Config.Config) (req : StockRequest) (w : world) (e : exn) :
  Config.MCP_SERVER_URL config <> "mock" ->
  except_RequestException (exc_type e) = false ->
  (network w (url config) (Vantage.headers (Vantage.init config)) (payload req) = Raise e \/
   exists response,
     network w (url config) (Vantage.headers (Vantage.init config)) (payload req)
       = Return response /\
     Vantage.status_code response = 200 /\
     Vantage.json response = Raise e) ->
  Vantage.get_stock_data Json network (Vantage.init config) req w
    = (Raise e, after w [EvHttpPost (url config) 30]).
Proof.
  intros Hurl Hcls Hnet.
  assert (Hmock : Vantage.use_mock_data (Vantage.init config) = false)
    by (simpl; apply String.eqb_neq; exact Hurl).
  unfold Vantage.get_stock_data. rewrite Hmock.
  unfold try_except, Py.bind, Vantage.requests_post.
  cbn [Vantage.base_url Vantage.init Vantage.headers] in *.
  unfold url, payload in Hnet.
  destruct Hnet as [Hnet | (response & Hnet & Hst & Hjson)].
  - rewrite Hnet, Hcls. reflexivity.
  - rewrite Hnet, Hst, Hjson. simpl. rewrite Hcls. reflexivity.
Qed.

(** X11: in live mode the client posts exactly once, whatever the
    outcome: the trace grows by the POST, followed by at most one printed
    line. *)
Theorem get_stock_data_posts_once
        (config : Config.Config) (req : StockRequest) (w : world) :
  Config.MCP_SERVER_URL config <> "mock" ->
  exists r w' tail,
    Vantage.get_stock_data Json network (Vantage.init config) req w = (r, w') /\
    trace w' = (trace w ++ EvHttpPost (url config) 30 :: tail)%list /\
    (tail = [] \/ exists line, tail = [EvPrint line]).
Proof.
  intros Hurl.
  assert (Hmock : Vantage.use_mock_data (Vantage.init config) = false)
    by (simpl; apply String.eqb_neq; exact Hurl).
  assert (Hsample : forall w1 line,
             trace w1 = (trace w ++ [EvHttpPost (url config) 30])%list ->
             exists d w',
               Py.bind (print line) (fun _ => Vantage.sample_for Json req) w1
                 = (Return (Vantage.Sample d), w') /\
               trace w' = (trace w ++ EvHttpPost (url config) 30 :: [EvPrint line])%list).
  { intros w1 line Hw1. unfold Py.bind, print, emit.
    match goal with
    | |- context [Vantage.sample_for Json req ?w2] =>
        destruct (sample_for_spec Json req w2) as (d & w' & Hs & _ & (_ & _ & Ht) & _)
    end.
    rewrite Hs. exists d, w'. split; [reflexivity | ].
    rewrite Ht. cbn [trace]. rewrite Hw1, <- app_assoc. reflexivity. }
  unfold Vantage.get_stock_data. rewrite Hmock.
  unfold try_except, Py.bind at 1, Vantage.requests_post.
  cbn [Vantage.base_url Vantage.init Vantage.headers] in *. fold (url config).
  set (w1 := mk_world (entropy w) (cursor w) (clock w)
                      (trace w ++ [EvHttpPost (url config) 30])).
  assert (Hw1 : trace w1 = (trace w ++ [EvHttpPost (url config) 30])%list) by reflexivity.
  assert (Hstop : forall r : Py.result (Vantage.StockData Json),
             exists r' w' tail,
               (r, w1) = (r', w') /\
               trace w' = (trace w ++ EvHttpPost (url config) 30 :: tail)%list /\
               (tail = [] \/ exists line, tail = [EvPrint line])).
  { intros r. exists r, w1, []. split; [reflexivity | ].
    split; [exact Hw1 | left; reflexivity]. }
  assert (Hfall : forall line,
             exists r' w' tail,
               Py.bind (print line) (fun _ => Vantage.sample_for Json req) w1 = (r', w') /\
               trace w' = (trace w ++ EvHttpPost (url config) 30 :: tail)%list /\
               (tail = [] \/ exists l, tail = [EvPrint l])).
  { intros line. destruct (Hsample w1 line Hw1) as (d & w' & Hrun & Ht).
    exists (Return (Vantage.Sample d)), w', [EvPrint line].
    split; [exact Hrun | ]. split; [exact Ht | right; eexists; reflexivity]. }
  destruct (network w _ _ _) as [response | e].
  - destruct (Vantage.status_code response =? 200).
    + unfold Py.bind, ret.
      destruct (Vantage.json response) as [body | e]; [apply Hstop | ].
      destruct (except_RequestException (exc_type e)); [apply Hfall | apply Hstop].
    + destruct (Hsample w1 ("MCP Server error, using mock data: "
                              +:+ pretty (Vantage.status_code response)) Hw1)
        as (d & w' & Hrun & Ht).
      rewrite Hrun. eexists (Return (Vantage.Sample d)), w', [EvPrint _].
      split; [reflexivity | ]. split; [exact Ht | right; eexists; reflexivity].
  - destruct (except_RequestException (exc_type e)); [apply Hfall | apply Hstop].
Qed.

End ClientMore.

Lemma live_env_not_mock : Config.MCP_SERVER_URL (Config.config live_env) <> "mock".
Proof. vm_compute. discriminate. Qed.

Lemma get_stock_data_mock_ignores_request_witness :
  Config.MCP_SERVER_URL (Config.config ∅) = "mock" /\
  exists d1 d2 w',
    Vantage.get_stock_data unit network_503 (Vantage.init (Config.config ∅)) request0 world0
      = (Return (Vantage.Sample d1), w') /\
    Vantage.get_stock_data unit network_200 (Vantage.init (Config.config ∅))
      (mk_StockRequest "AAPL" P1d (Some "2020-01-01") (Some "2020-01-02")) world0
      = (Return (Vantage.Sample d2), w') /\
    data d1 = data d2.
Proof.
  split; [reflexivity | ].
  apply (get_stock_data_mock_ignores_request unit network_503 network_200
           (Config.config ∅) request0
           (mk_StockRequest "AAPL" P1d (Some "2020-01-01") (Some "2020-01-02")) world0).
  reflexivity.
Defined.

Lemma get_stock_data_live_200_witness :
  Config.MCP_SERVER_URL (Config.config live_env) <> "mock" /\
  Vantage.get_stock_data unit network_200 (Vantage.init (Config.config live_env))
                         request0 world0
    = (Return (Vantage.ProviderBody tt),
       after world0 [EvHttpPost "http://localhost:8000/stock/data" 30]).
Proof.
  split; [exact live_env_not_mock | ].
  apply (get_stock_data_live_200 unit network_200 (Config.config live_env) request0 world0
           (Vantage.mk_Response 200 (Return tt)) tt live_env_not_mock);
    reflexivity.
Defined.

Lemma get_stock_data_propagates_witness :
  Config.MCP_SERVER_URL (Config.config live_env) <> "mock" /\
  except_RequestException TypeError = false /\
  fst (Vantage.get_stock_data unit network_type_error
         (Vantage.init (Config.config live_env)) request0 world0)
    = Raise (mk_exn TypeError "Object of type TimePeriod is not JSON serializable").
Proof.
  split; [exact live_env_not_mock | ]. split; [reflexivity | ].
  rewrite (get_stock_data_propagates unit network_type_error
             (Config.config live_env) request0 world0
             (mk_exn TypeError "Object of type TimePeriod is not JSON serializable")
             live_env_not_mock);
    [reflexivity | reflexivity | left; reflexivity].
Defined.

Lemma get_stock_data_posts_once_witness :
  Config.MCP_SERVER_URL (Config.config live_env) <> "mock" /\
  exists r w' tail,
    Vantage.get_stock_data unit network_503 (Vantage.init (Config.config live_env))
                           request0 world0 = (r, w') /\
    trace w' = (trace world0
                  ++ EvHttpPost (url (Config.config live_env)) 30 :: tail)%list /\
    (tail = [] \/ exists line, tail = [EvPrint line]).
Proof.
  split; [exact live_env_not_mock | ].
  apply (get_stock_data_posts_once unit network_503 (Config.config live_env)
           request0 world0 live_env_not_mock).
Defined.

(* ===================================================================== *)
(** ** Further properties: technical indicators *)
(* ===================================================================== *)



Section IndicatorProperties.

Variable Json : Type.
Variable indicator_network :
  world -> string -> list (string * string) -> string -> list StockDataPoint ->
  Py.result (Vantage.Response Json).

(** X12: [get_technical_indicators] never raises.  In mock mode it leaves
    the world alone; in live mode it returns the provider's body only for
    a status 200 response whose body parses, and the empty dictionary in
    every other case, every exception included. *)
Theorem get_technical_indicators_never_raises
        (self : Vantage.VantageMCPServer) (sym : string)
        (data : list StockDataPoint) (w : world) :
  exists r w',
    Vantage.get_technical_indicators Json indicator_network self sym data w
      = (Return r, w') /\
    match r with
    | Vantage.DemoIndicators _ _ _ _ =>
        Vantage.use_mock_data self = true /\ w' = w
    | Vantage.ProviderIndicators body =>
        Vantage.use_mock_data self = false /\
        exists response,
          indicator_network w (Vantage.base_url self +:+ "/technical/indicators")
                            (Vantage.headers self) sym data = Return response /\
          Vantage.status_code response = 200 /\
          Vantage.json response = Return body
    | Vantage.EmptyDict => Vantage.use_mock_data self = false
    end.
Proof.
  unfold Vantage.get_technical_indicators.
  destruct (Vantage.use_mock_data self) eqn:Hmock.
  - eexists. eexists. split; [reflexivity | ]. split; reflexivity.
  - unfold try_except, Py.bind, Vantage.requests_post_indicators, Vantage.bare_except, ret.
    destruct (indicator_network w _ _ sym data) as [response | e] eqn:Hnet.
    + destruct (Vantage.status_code response =? 200) eqn:Hst.
      * destruct (Vantage.json response) as [body | e] eqn:Hjson.
        -- eexists. eexists. split; [reflexivity | ]. split; [reflexivity | ].
           exists response. apply Z.eqb_eq in Hst. repeat split; assumption.
        -- eexists. eexists. split; [reflexivity | reflexivity].
      * eexists. eexists. split; [reflexivity | reflexivity].
    + eexists. eexists. split; [reflexivity | reflexivity].
Qed.


End IndicatorProperties.


Example get_technical_indicators_down :
  fst (Vantage.get_technical_indicators unit indicator_network_down
         (Vantage.init (Config.config live_env)) "AMZN" [] world0)
  = Return Vantage.EmptyDict.
Proof. reflexivity. Qed.

(* ===================================================================== *)
(** ** Further properties: the dashboard *)
(* ===================================================================== *)

Lemma after_app (w : world) (evs evs' : list event) :
  after (after w evs) evs' = after w (evs ++ evs').
Proof. unfold after. simpl. rewrite <- app_assoc. reflexivity. Qed.

Lemma emit_after (ev : event) (w : world) : emit ev w = (Return tt, after w [ev]).
Proof. reflexivity. Qed.

Lemma st_after (widget text : string) (w : world) :
  App.st widget text w = (Return tt, after w [EvStreamlit widget text]).
Proof. reflexivity. Qed.

(** What [setup_sidebar] does for a label of the select box. *)
Lemma setup_sidebar_eval (ui : App.ui_input) (w : world) (p : string) :
  App.period_options !! App.selected_period ui = Some p ->
  App.setup_sidebar ui w =
    if dates_rejected ui then
      (Return App.Tuple4_None,
       after w [ EvStreamlit "sidebar.title" "📊 Stock Analysis Configuration";
                 EvStreamlit "sidebar.error" "Start date must be before end date" ])
    else
      (Return (App.Tuple7 (upper (App.symbol_text ui)) p
                 (if App.use_custom_dates ui then App.start_date_input ui else None)
                 (if App.use_custom_dates ui then App.end_date_input ui else None)
                 (App.show_technical_box ui) (App.show_volume_box ui)
                 (App.detailed_analysis_box ui)),
       after w [ EvStreamlit "sidebar.title" "📊 Stock Analysis Configuration";
                 EvStreamlit "sidebar.markdown" "---";
                 EvStreamlit "sidebar.subheader" "Analysis Options" ]).
Proof.
  intros Hp. unfold App.setup_sidebar, dates_rejected. rewrite Hp.
  destruct (App.use_custom_dates ui);
    [ destruct (App.start_date_input ui) as [s | ], (App.end_date_input ui) as [e | ];
      try destruct (s >=? e) | ];
    unfold Py.bind, ret;
    repeat (cbv beta iota zeta; rewrite st_after);
    cbv beta iota zeta; rewrite ?after_app; reflexivity.
Qed.




Section DashboardProperties.

Variable analyze_stock :
  string -> string -> option string -> option string -> M (gmap string pyval).
Variable display_results : pyval -> bool -> bool -> M unit.
Variable str_object : pyval -> string.

(** What [run] does once the sidebar returned a configuration. *)
Lemma run_eval (ui : App.ui_input) (w : world) (p : string) :
  App.period_options !! App.selected_period ui = Some p ->
  dates_rejected ui = false ->
  App.run analyze_stock display_results str_object ui w =
    match (if App.analyze_button ui then
             App.on_analyze analyze_stock display_results str_object
               (upper (App.symbol_text ui)) p
               (if App.use_custom_dates ui then App.start_date_input ui else None)
               (if App.use_custom_dates ui then App.end_date_input ui else None)
               (App.show_volume_box ui) (App.detailed_analysis_box ui)
           else ret tt) (after w run_header) with
    | (Return _, w') => (Return tt, after w' (run_footer ui))
    | (Raise e, w') => (Raise e, w')
    end.
Proof.
  intros Hp Hrej. unfold App.run.
  unfold Py.bind at 1. rewrite st_after.
  unfold Py.bind at 1. rewrite st_after, after_app.
  unfold Py.bind at 1. rewrite (setup_sidebar_eval ui _ p Hp), Hrej, after_app.
  unfold Py.bind at 1, App.unpack7, ret.
  unfold Py.bind at 1. simpl app. fold run_header.
  match goal with
  | |- context [match ?c (after w run_header) with _ => _ end] =>
      destruct (c (after w run_header)) as [[[] | e] w']
  end; [ | reflexivity].
  unfold Py.bind, ret. rewrite !st_after.
  unfold run_footer.
  destruct (App.quick_amzn_button ui), (App.quick_aapl_button ui);
    rewrite ?st_after, !after_app; reflexivity.
Qed.

(** X15: when the analyze button is not pressed, [run] draws the page
    frame and nothing else: the analyze operation is not called, no error
    is shown, and a quick-pick button only stores its symbol. *)
Theorem run_without_button (ui : App.ui_input) (w : world) (p : string) :
  App.period_options !! App.selected_period ui = Some p ->
  dates_rejected ui = false ->
  App.analyze_button ui = false ->
  App.run analyze_stock display_results str_object ui w
    = (Return tt, after w (run_header ++ run_footer ui)).
Proof.
  intros Hp Hrej Hbtn. rewrite (run_eval ui w p Hp Hrej), Hbtn.
  unfold ret. rewrite after_app. reflexivity.
Qed.

(** X16: with an empty symbol box the analyze button only shows
    ["Please enter a stock symbol"]; the analyze operation is not called. *)
Theorem run_empty_symbol (ui : App.ui_input) (w : world) (p : string) :
  App.period_options !! App.selected_period ui = Some p ->
  dates_rejected ui = false ->
  App.analyze_button ui = true ->
  App.symbol_text ui = "" ->
  App.run analyze_stock display_results str_object ui w
    = (Return tt,
       after w (run_header
                  ++ [EvStreamlit "error" "Please enter a stock symbol"]
                  ++ run_footer ui)).
Proof.
  intros Hp Hrej Hbtn Hsym. rewrite (run_eval ui w p Hp Hrej), Hbtn, Hsym.
  unfold App.on_analyze.
  change (negb (String.eqb (upper "") "")) with false. cbv iota.
  rewrite st_after, !after_app. reflexivity.
Qed.

(** What [run_analysis] does, by the outcome of the analyze operation. *)
Lemma run_analysis_eval
      (sym per : string) (start_date end_date : option Z) (w : world) :
  App.run_analysis analyze_stock sym per start_date end_date w =
    match analyze_stock sym per (App.isoformat <$> start_date)
                        (App.isoformat <$> end_date)
            (after w [ EvStreamlit "spinner"
                         ("Analyzing " +:+ sym +:+ " for " +:+ per +:+ " period...");
                       EvAnalyze sym per ]) with
    | (Return m, w') => (Return (Some m), w')
    | (Raise e, w') =>
        (Return None, after w' [EvStreamlit "error" ("Analysis failed: " +:+ exc_str e)])
    end.
Proof.
  unfold App.run_analysis, try_except, except_Exception.
  unfold Py.bind at 1. rewrite st_after.
  unfold Py.bind at 1. rewrite emit_after, after_app.
  unfold Py.bind at 1. simpl app.
  destruct (analyze_stock _ _ _ _ _) as [[m | e] w']; [reflexivity | ].
  unfold Py.bind, ret. rewrite st_after. reflexivity.
Qed.


End DashboardProperties.

Lemma upper_nonempty (s : string) : s <> "" -> String.eqb (upper s) "" = false.
Proof. destruct s as [ | c s]; [intros H; destruct H; reflexivity | reflexivity]. Qed.

Section DashboardResults.

Variable display_results : pyval -> bool -> bool -> M unit.
Variable str_object : pyval -> string.

(** What the analyze branch of [run] does with a mapping [m] that the
    analyze operation returned in the world [w1]. *)
Lemma on_analyze_eval
      (analyze_stock : string -> string -> option string -> option string ->
                       M (gmap string pyval))
      (sym per : string) (start_date end_date : option Z) (sv da : bool)
      (w w1 : world) (m : gmap string pyval) :
  String.eqb sym "" = false ->
  analyze_stock sym per (App.isoformat <$> start_date) (App.isoformat <$> end_date)
                (after w (analysis_started sym per)) = (Return m, w1) ->
  App.on_analyze analyze_stock display_results str_object
                 sym per start_date end_date sv da w =
    if bool_decide (m ≠ ∅) && negb (truthy (dict_get m "error")) then
      if truthy (dict_get m "analysis_result") then
        display_results (dict_get m "analysis_result") sv da
                        (after w1 [EvStreamlit "markdown" "---"])
      else (Return tt, after w1 [EvStreamlit "error" "No analysis results available"])
    else
      (Return tt,
       after w1 [EvStreamlit "error"
                   ("Analysis failed: " +:+
                    (if bool_decide (m ≠ ∅) then
                       match m !! "error" with
                       | Some v => py_str str_object v
                       | None => "Unknown error occurred"
                       end
                     else "Analysis failed"))]).
Proof.
  intros Hsym Hrun. unfold App.on_analyze. rewrite Hsym.
  change (negb false) with true. cbv iota.
  unfold Py.bind at 1. rewrite run_analysis_eval.
  unfold analysis_started in Hrun. rewrite Hrun. cbv beta iota zeta.
  destruct (bool_decide (m ≠ ∅) && negb (truthy (dict_get m "error"))).
  - destruct (truthy (dict_get m "analysis_result")).
    + unfold Py.bind. rewrite st_after. reflexivity.
    + rewrite st_after. reflexivity.
  - rewrite st_after. reflexivity.
Qed.


(** X19: when the analyze operation returns a mapping that holds neither
    a true error nor a true analysis result, [run] shows ["No analysis
    results available"]; for the empty mapping it shows ["Analysis failed:
    Analysis failed"].  Nothing is drawn for the result. *)
Theorem run_without_result
        (ui : App.ui_input) (w : world) (p : string) (m : gmap string pyval) :
  App.period_options !! App.selected_period ui = Some p ->
  dates_rejected ui = false ->
  App.analyze_button ui = true ->
  App.symbol_text ui <> "" ->
  truthy (dict_get m "error") = false ->
  truthy (dict_get m "analysis_result") = false ->
  App.run (analyze_returning m) display_results str_object ui w
    = (Return tt,
       after w (run_header
                  ++ analysis_started (upper (App.symbol_text ui)) p
                  ++ [EvStreamlit "error"
                        (if bool_decide (m = ∅)
                         then "Analysis failed: Analysis failed"
                         else "No analysis results available")]
                  ++ run_footer ui)).
Proof.
  intros Hp Hrej Hbtn Hsym Herr Han.
  rewrite (run_eval _ _ _ ui w p Hp Hrej), Hbtn.
  rewrite (on_analyze_eval _ _ _ _ _ _ _ _
             (after (after w run_header)
                    (analysis_started (upper (App.symbol_text ui)) p))
             m (upper_nonempty _ Hsym)); [ | reflexivity].
  rewrite Herr, Han. cbn [negb].
  destruct (decide (m = ∅)) as [Hm | Hm].
  - rewrite (bool_decide_eq_true_2 _ Hm).
    assert (Hf : bool_decide (m ≠ ∅) = false)
      by (apply bool_decide_eq_false; intros H; apply H, Hm).
    rewrite Hf. cbn [andb]. rewrite !after_app. reflexivity.
  - rewrite (bool_decide_eq_false_2 _ Hm).
    assert (Ht : bool_decide (m ≠ ∅) = true) by (apply bool_decide_eq_true; exact Hm).
    rewrite Ht. cbn [andb]. rewrite !after_app. reflexivity.
Qed.

(** X20: with a true analysis result and no true error, [run] hands the
    result to the drawing code together with the volume and detail boxes,
    after a rule; what the page shows then is up to the drawing code. *)
Theorem run_draws_result
        (ui : App.ui_input) (w : world) (p : string) (m : gmap string pyval) :
  App.period_options !! App.selected_period ui = Some p ->
  dates_rejected ui = false ->
  App.analyze_button ui = true ->
  App.symbol_text ui <> "" ->
  truthy (dict_get m "error") = false ->
  truthy (dict_get m "analysis_result") = true ->
  App.run (analyze_returning m) display_results str_object ui w
    = match display_results (dict_get m "analysis_result")
                            (App.show_volume_box ui) (App.detailed_analysis_box ui)
                            (after w (run_header
                                        ++ analysis_started (upper (App.symbol_text ui)) p
                                        ++ [EvStreamlit "markdown" "---"])) with
      | (Return _, w') => (Return tt, after w' (run_footer ui))
      | (Raise e, w') => (Raise e, w')
      end.
Proof.
  intros Hp Hrej Hbtn Hsym Herr Han.
  rewrite (run_eval _ _ _ ui w p Hp Hrej), Hbtn.
  rewrite (on_analyze_eval _ _ _ _ _ _ _ _
             (after (after w run_header)
                    (analysis_started (upper (App.symbol_text ui)) p))
             m (upper_nonempty _ Hsym)); [ | reflexivity].
  rewrite Herr, Han. cbn [negb].
  assert (Hm : m ≠ ∅).
  { intros ->. unfold dict_get in Han. rewrite lookup_empty in Han. discriminate Han. }
  rewrite (bool_decide_eq_true_2 _ Hm). cbn [andb]. rewrite !after_app. reflexivity.
Qed.

End DashboardResults.

Section DashboardFrame.

Variable analyze_stock :
  string -> string -> option string -> option string -> M (gmap string pyval).
Variable display_results : pyval -> bool -> bool -> M unit.
Variable str_object : pyval -> string.

Lemma run_rejected_eval (ui : App.ui_input) (w : world) (p : string) :
  App.period_options !! App.selected_period ui = Some p ->
  dates_rejected ui = true ->
  App.run analyze_stock display_results str_object ui w =
    (Raise (mk_exn ValueError "not enough values to unpack (expected 7, got 4)"),
     after w [ EvStreamlit "markdown" "📈 AI Stock Trend Analyzer";
               EvStreamlit "markdown"
                 "Analyze stock trends using AI-powered analysis with MCP Server integration";
               EvStreamlit "sidebar.title" "📊 Stock Analysis Configuration";
               EvStreamlit "sidebar.error" "Start date must be before end date" ]).
Proof.
  intros Hp Hrej. unfold App.run.
  unfold Py.bind at 1. rewrite st_after.
  unfold Py.bind at 1. rewrite st_after, after_app.
  unfold Py.bind at 1. rewrite (setup_sidebar_eval ui _ p Hp), Hrej, after_app.
  reflexivity.
Qed.

Lemma run_unknown_label_eval (ui : App.ui_input) (w : world) :
  App.period_options !! App.selected_period ui = None ->
  App.run analyze_stock display_results str_object ui w =
    (Raise (mk_exn (OtherException "KeyError") (App.selected_period ui)),
     after w [ EvStreamlit "markdown" "📈 AI Stock Trend Analyzer";
               EvStreamlit "markdown"
                 "Analyze stock trends using AI-powered analysis with MCP Server integration";
               EvStreamlit "sidebar.title" "📊 Stock Analysis Configuration" ]).
Proof.
  intros Hp. unfold App.run.
  unfold Py.bind at 1. rewrite st_after.
  unfold Py.bind at 1. rewrite st_after, after_app.
  unfold Py.bind at 1, App.setup_sidebar.
  unfold Py.bind at 1. rewrite st_after, after_app.
  unfold Py.bind at 1. rewrite Hp. reflexivity.
Qed.

(** X21: the "Show Technical Indicators" box has no effect: [run] behaves
    the same whatever its value. *)
Theorem run_ignores_show_technical (ui : App.ui_input) (b : bool) (w : world) :
  App.run analyze_stock display_results str_object (with_show_technical b ui) w
  = App.run analyze_stock display_results str_object ui w.
Proof.
  destruct (App.period_options !! App.selected_period ui) as [p | ] eqn:Hp.
  - destruct (dates_rejected ui) eqn:Hrej.
    + rewrite (run_rejected_eval ui w p Hp Hrej).
      apply (run_rejected_eval (with_show_technical b ui) w p Hp Hrej).
    + rewrite (run_eval _ _ _ ui w p Hp Hrej).
      apply (run_eval _ _ _ (with_show_technical b ui) w p Hp Hrej).
  - rewrite (run_unknown_label_eval ui w Hp).
    apply (run_unknown_label_eval (with_show_technical b ui) w Hp).
Qed.

End DashboardFrame.

Lemma run_without_button_witness :
  App.period_options !! App.selected_period ui_idle = Some "3m" /\
  dates_rejected ui_idle = false /\
  App.analyze_button ui_idle = false /\
  App.run analyze_stub display_stub str_object_stub ui_idle world0
    = (Return tt, after world0 (run_header ++ run_footer ui_idle)).
Proof.
  assert (Hp : App.period_options !! App.selected_period ui_idle = Some "3m")
    by reflexivity.
  split; [exact Hp | ]. split; [reflexivity | ]. split; [reflexivity | ].
  apply (run_without_button analyze_stub display_stub str_object_stub
           ui_idle world0 "3m" Hp); reflexivity.
Defined.

Lemma run_empty_symbol_witness :
  App.period_options !! App.selected_period ui_no_symbol = Some "1y" /\
  dates_rejected ui_no_symbol = false /\
  App.analyze_button ui_no_symbol = true /\
  App.symbol_text ui_no_symbol = "" /\
  App.run analyze_stub display_stub str_object_stub ui_no_symbol world0
    = (Return tt,
       after world0 (run_header
                       ++ [EvStreamlit "error" "Please enter a stock symbol"]
                       ++ run_footer ui_no_symbol)).
Proof.
  assert (Hp : App.period_options !! App.selected_period ui_no_symbol = Some "1y")
    by reflexivity.
  split; [exact Hp | ]. split; [reflexivity | ].
  split; [reflexivity | ]. split; [reflexivity | ].
  apply (run_empty_symbol analyze_stub display_stub str_object_stub
           ui_no_symbol world0 "1y" Hp); reflexivity.
Defined.


Lemma run_without_result_witness :
  App.period_options !! App.selected_period ui_pressed = Some "1y" /\
  dates_rejected ui_pressed = false /\
  App.analyze_button ui_pressed = true /\
  App.symbol_text ui_pressed <> "" /\
  truthy (dict_get (∅ : gmap string pyval) "error") = false /\
  truthy (dict_get (∅ : gmap string pyval) "analysis_result") = false /\
  App.run (analyze_returning ∅) display_stub str_object_stub ui_pressed world0
    = (Return tt,
       after world0
         (run_header
            ++ analysis_started "AMZN" "1y"
            ++ [EvStreamlit "error" "Analysis failed: Analysis failed"]
            ++ run_footer ui_pressed)).
Proof.
  assert (Hp : App.period_options !! App.selected_period ui_pressed = Some "1y")
    by reflexivity.
  assert (Hsym : App.symbol_text ui_pressed <> "") by discriminate.
  assert (He : truthy (dict_get (∅ : gmap string pyval) "error") = false)
    by reflexivity.
  assert (Ha : truthy (dict_get (∅ : gmap string pyval) "analysis_result") = false)
    by reflexivity.
  split; [exact Hp | ]. split; [reflexivity | ]. split; [reflexivity | ].
  split; [exact Hsym | ]. split; [exact He | ]. split; [exact Ha | ].
  apply (run_without_result display_stub str_object_stub ui_pressed world0 "1y" ∅
           Hp eq_refl eq_refl Hsym He Ha).
Defined.

Lemma run_draws_result_witness :
  App.period_options !! App.selected_period ui_pressed = Some "1y" /\
  dates_rejected ui_pressed = false /\
  App.analyze_button ui_pressed = true /\
  App.symbol_text ui_pressed <> "" /\
  truthy (dict_get ({[ "analysis_result" := VAnalysis analysis0 ]} : gmap string pyval)
                   "error") = false /\
  truthy (dict_get ({[ "analysis_result" := VAnalysis analysis0 ]} : gmap string pyval)
                   "analysis_result") = true /\
  App.run (analyze_returning {[ "analysis_result" := VAnalysis analysis0 ]})
          display_stub str_object_stub ui_pressed world0
    = (Return tt,
       after world0
         (run_header
            ++ analysis_started "AMZN" "1y"
            ++ [EvStreamlit "markdown" "---"]
            ++ run_footer ui_pressed)).
Proof.
  assert (Hp : App.period_options !! App.selected_period ui_pressed = Some "1y")
    by reflexivity.
  assert (Hsym : App.symbol_text ui_pressed <> "") by discriminate.
  assert (He : truthy (dict_get ({[ "analysis_result" := VAnalysis analysis0 ]}
                                  : gmap string pyval) "error") = false)
    by reflexivity.
  assert (Ha : truthy (dict_get ({[ "analysis_result" := VAnalysis analysis0 ]}
                                  : gmap string pyval) "analysis_result") = true)
    by reflexivity.
  split; [exact Hp | ]. split; [reflexivity | ]. split; [reflexivity | ].
  split; [exact Hsym | ]. split; [exact He | ]. split; [exact Ha | ].
  rewrite (run_draws_result display_stub str_object_stub ui_pressed world0 "1y"
             {[ "analysis_result" := VAnalysis analysis0 ]}
             Hp eq_refl eq_refl Hsym He Ha).
  unfold display_stub, ret. rewrite after_app, <- !app_assoc. reflexivity.
Defined.

(* ===================================================================== *)
(** ** Further properties: the drawing methods of the dashboard *)
(* ===================================================================== *)

Section DrawingProperties.

Variable fmt_2f : Q -> string.
Variable fmt_comma_0f : Q -> string.

(** X22: the metric cards: nothing is drawn without an analysis or with
    empty statistics; otherwise there are four cards, one per column, and
    the change indicator of the first is ["normal"] exactly when the
    percent change is positive, so a zero or missing change is drawn as
    ["inverse"]. *)
Theorem create_performance_metrics_cards (a : StockAnalysis) :
  App.create_performance_metrics fmt_2f fmt_comma_0f None = [] /\
  (an_statistics a = ∅ ->
   App.create_performance_metrics fmt_2f fmt_comma_0f (Some a) = []) /\
  (an_statistics a <> ∅ ->
   exists color,
     App.create_performance_metrics fmt_2f fmt_comma_0f (Some a) =
       [ App.Column 0
           [ App.Metric "Current Price"
               ("$" +:+ fmt_2f (stat (an_statistics a) "current_price"))
               (Some (fmt_2f (stat (an_statistics a) "percent_change") +:+ "%"))
               (Some color) ];
         App.Column 1
           [ App.Metric "Period High"
               ("$" +:+ fmt_2f (stat (an_statistics a) "period_high")) None None ];
         App.Column 2
           [ App.Metric "Period Low"
               ("$" +:+ fmt_2f (stat (an_statistics a) "period_low")) None None ];
         App.Column 3
           [ App.Metric "Avg Volume"
               (fmt_comma_0f (stat (an_statistics a) "avg_volume")) None None ] ] /\
     (color = "normal" <-> (0 < stat (an_statistics a) "percent_change")%Q) /\
     (color = "inverse" <-> (stat (an_statistics a) "percent_change" <= 0)%Q)).
Proof.
  split; [reflexivity | ]. split.
  - intros Hempty. unfold App.create_performance_metrics.
    rewrite Hempty, map_size_empty. reflexivity.
  - intros Hne. unfold App.create_performance_metrics.
    assert (Hsize : (size (an_statistics a) =? 0)%nat = false).
    { apply Nat.eqb_neq. intros H. apply Hne, map_size_empty_iff, H. }
    rewrite Hsize.
    destruct (Qle_bool (stat (an_statistics a) "percent_change") 0) eqn:Hle.
    + apply Qle_bool_iff in Hle. exists "inverse". simpl.
      split; [reflexivity | ]. split; split; intros H;
        try discriminate H; try reflexivity; try exact Hle.
      exfalso. lra.
    + assert (Hgt : (0 < stat (an_statistics a) "percent_change")%Q).
      { apply Qnot_le_lt. intros H. apply Qle_bool_iff in H. congruence. }
      exists "normal". simpl.
      split; [reflexivity | ]. split; split; intros H;
        try discriminate H; try reflexivity; try exact Hgt.
      exfalso. lra.
Qed.

End DrawingProperties.

(** X23: the trend panel: nothing is drawn without trends; otherwise the
    direction is shown in upper case behind a circle that is green only
    for exactly ["bullish"], red only for exactly ["bearish"] and white
    for anything else, and the narrative is drawn, in an expanded panel,
    exactly when the detail box is ticked and the narrative is not empty. *)
Theorem display_trend_analysis_panel (a : StockAnalysis) (detailed : bool) :
  (an_trends a = ∅ -> App.display_trend_analysis (Some a) detailed = []) /\
  (an_trends a <> ∅ ->
   let direction := default "unknown" (an_trends a !! "trend_direction") in
   let narrative := default "" (an_trends a !! "analysis") in
   exists circle rest,
     App.display_trend_analysis (Some a) detailed =
       ([ App.Markdown "### 📈 Trend Analysis";
          App.Column 0 [ App.Markdown ("**Trend Direction:** " +:+ circle +:+ " "
                                         +:+ upper direction) ];
          App.Column 1 [ App.Markdown ("**Volatility:** "
                                         +:+ upper (default "unknown"
                                                      (an_trends a !! "volatility"))) ] ]
          ++ rest)%list /\
     (direction = "bullish" -> circle = "🟢") /\
     (direction = "bearish" -> circle = "🔴") /\
     (direction <> "bullish" -> direction <> "bearish" -> circle = "⚪") /\
     (detailed = true /\ narrative <> "" ->
      rest = [ App.Expander "Detailed Trend Analysis" true [App.Markdown narrative] ]) /\
     (detailed = false \/ narrative = "" -> rest = [])).
Proof.
  split.
  - intros Hempty. unfold App.display_trend_analysis.
    rewrite Hempty, map_size_empty. reflexivity.
  - intros Hne direction narrative. unfold App.display_trend_analysis.
    assert (Hsize : (size (an_trends a) =? 0)%nat = false).
    { apply Nat.eqb_neq. intros H. apply Hne, map_size_empty_iff, H. }
    rewrite Hsize. fold direction. fold narrative.
    eexists. eexists. split; [reflexivity | ].
    repeat split.
    + intros ->. reflexivity.
    + intros ->. reflexivity.
    + intros Hb Hr.
      apply String.eqb_neq in Hb. apply String.eqb_neq in Hr.
      rewrite Hb, Hr. reflexivity.
    + intros [-> Hn]. apply String.eqb_neq in Hn. rewrite Hn. reflexivity.
    + intros [-> | Hn]; [reflexivity | ].
      rewrite Hn. destruct detailed; reflexivity.
Qed.

Example display_trend_analysis_mixed_case :
  App.display_trend_analysis (Some analysis0) true =
    [ App.Markdown "### 📈 Trend Analysis";
      App.Column 0 [ App.Markdown "**Trend Direction:** ⚪ BULLISH" ];
      App.Column 1 [ App.Markdown "**Volatility:** UNKNOWN" ];
      App.Expander "Detailed Trend Analysis" true [ App.Markdown "Sideways." ] ].
Proof. reflexivity. Qed.

(* ===================================================================== *)
(** ** Further properties: loading src/mcp/vantage_client.py *)
(* ===================================================================== *)

Lemma exec_module_loaded_imports (importable : string -> bool)
      (body : list ModuleLoad.stmt) :
  forall globals globals',
    ModuleLoad.exec_module importable globals body = (globals', None) ->
    forall m, In m (ModuleLoad.imported_modules body) -> importable m = true.
Proof.
  induction body as [ | s rest IH]; intros globals globals' Hrun m Hin; [destruct Hin | ].
  cbn [ModuleLoad.exec_module] in Hrun.
  destruct (ModuleLoad.exec_stmt importable globals s) as [g1 | e] eqn:Hs;
    [ | discriminate Hrun].
  unfold ModuleLoad.imported_modules in Hin. cbn [flat_map] in Hin.
  apply List.in_app_or in Hin as [Hin | Hin].
  - destruct s as [m' binds | name cbody | target callee];
      [ | destruct Hin | destruct Hin].
    destruct Hin as [<- | []].
    cbn [ModuleLoad.exec_stmt] in Hs.
    destruct (importable m'); [reflexivity | discriminate Hs].
  - apply (IH g1 globals' Hrun m Hin).
Qed.

Lemma vantage_client_stops_at_List :
  snd (ModuleLoad.exec_module all_importable ∅ ModuleLoad.vantage_client_py)
  = Some (mk_exn NameError "name 'List' is not defined").
Proof. vm_compute. reflexivity. Qed.

(** X24: vantage_client.py never loads, whichever of the modules it
    imports are installed: running its top-level statements always ends in
    an exception, and so does every import of it. *)
Theorem vantage_client_never_loads (importable : string -> bool) :
  exists globals e,
    ModuleLoad.exec_module importable ∅ ModuleLoad.vantage_client_py
      = (globals, Some e) /\
    ModuleLoad.import_from importable ModuleLoad.vantage_client_py ["vantage_client"]
      = Some e.
Proof.
  unfold ModuleLoad.import_from.
  destruct (ModuleLoad.exec_module importable ∅ ModuleLoad.vantage_client_py)
    as [globals [e | ]] eqn:Hrun.
  - exists globals, e. split; reflexivity.
  - exfalso.
    pose proof (exec_module_loaded_imports importable _ _ _ Hrun) as Himp.
    assert (Heq : ModuleLoad.exec_module importable ∅ ModuleLoad.vantage_client_py
                  = ModuleLoad.exec_module all_importable ∅ ModuleLoad.vantage_client_py).
    { apply exec_module_importable. intros m Hm. rewrite (Himp m Hm). reflexivity. }
    rewrite Heq in Hrun. apply (f_equal snd) in Hrun.
    rewrite vantage_client_stops_at_List in Hrun. discriminate Hrun.
Qed.
